(** * hello-world-strand-agents: the agent client and its tool functions

    A shallow embedding of [src/agents/ollama_agent.py],
    [src/agents/specialized_agents.py], [src/config/ollama_config.py] and
    [src/tools/custom_tools.py], and the properties the specification states
    about them.

    Conventions of the embedding.
    - A Python [str] is a [string]; a character stands for the code point of
      the same number, so the strings of the model are the Latin-1 ones.
    - A Python [float] is a binary64 primitive float; [+], [-], [*] are the
      IEEE operations, [/] raises [ZeroDivisionError] on a zero divisor.
    - A dynamically typed value is a [pyval]; a dict keeps its insertion order
      and is an association list.
    - A call that can raise returns an [outcome]; code with effects (the log,
      the requests handed to the client library, the fields of [self]) runs in
      the state monad [M]. *)

From Stdlib Require Import ZArith List String Ascii Bool Lia Floats Sorted Permutation.
Import ListNotations.

Set Warnings "-inexact-float,-register-all".

Local Open Scope string_scope.
Local Open Scope list_scope.

(** ** Python values *)

Module Py.

(** An exception object: its class and the text [str(e)] gives. Every
    exception of the model is an instance of [Exception], as the faults of a
    request and of reading its response are; [KeyboardInterrupt],
    [SystemExit], [GeneratorExit] and [asyncio.CancelledError], which an
    [except Exception] lets through, come from outside the program and are
    not modelled. *)
Record exn := mk_exn {
  exn_class : string;
  exn_str : string
}.

Inductive outcome (A : Type) : Type :=
| Return (a : A)
| Raise (e : exn).

Arguments Return {A} a.
Arguments Raise {A} e.

Definition obind {A B} (o : outcome A) (k : A -> outcome B) : outcome B :=
  match o with
  | Return a => k a
  | Raise e => Raise e
  end.

(** [PIter items fin] is a lazy iterator (a generator): it hands out [items]
    one by one and then stops, normally ([fin = None]) or by raising. *)
Inductive pyval :=
| PNone
| PBool (b : bool)
| PInt (z : Z)
| PFloat (f : float)
| PStr (s : string)
| PList (l : list pyval)
| PDict (d : list (string * pyval))
| PIter (items : list pyval) (fin : option exn).

Definition pydict := list (string * pyval).

Fixpoint dict_get {V : Type} (d : list (string * V)) (k : string) : option V :=
  match d with
  | [] => None
  | (k', v) :: d' => if String.eqb k' k then Some v else dict_get d' k
  end.

(** [k in d] *)
Definition dict_has {V : Type} (d : list (string * V)) (k : string) : bool :=
  match dict_get d k with
  | Some _ => true
  | None => false
  end.

Definition TypeError (msg : string) : exn := mk_exn "TypeError" msg.
Definition ValueError (msg : string) : exn := mk_exn "ValueError" msg.
Definition ZeroDivisionError (msg : string) : exn := mk_exn "ZeroDivisionError" msg.

(** [str(KeyError(k))] is [repr(k)]; the keys this program subscripts with
    are plain identifiers, whose [repr] wraps them in single quotes. *)
Definition KeyError (k : string) : exn := mk_exn "KeyError" ("'" ++ k ++ "'")%string.

Definition type_name (v : pyval) : string :=
  match v with
  | PNone => "NoneType"
  | PBool _ => "bool"
  | PInt _ => "int"
  | PFloat _ => "float"
  | PStr _ => "str"
  | PList _ => "list"
  | PDict _ => "dict"
  | PIter _ _ => "generator"
  end.

(** [v[k]] for a string key [k] (messages as CPython 3.11 words them). *)
Definition subscript (v : pyval) (k : string) : outcome pyval :=
  match v with
  | PDict d =>
      match dict_get d k with
      | Some x => Return x
      | None => Raise (KeyError k)
      end
  | PStr _ => Raise (TypeError "string indices must be integers, not 'str'")
  | PList _ => Raise (TypeError "list indices must be integers or slices, not str")
  | _ => Raise (TypeError ("'" ++ type_name v ++ "' object is not subscriptable")%string)
  end.

(** [iter(v)] run to its end: the items it hands out and how it stops. *)
Definition py_iter (v : pyval) : outcome (list pyval * option exn) :=
  match v with
  | PList l => Return (l, None)
  | PDict d => Return (map (fun kv => PStr (fst kv)) d, None)
  | PStr s => Return (map (fun c => PStr (String c EmptyString)) (list_ascii_of_string s), None)
  | PIter items fin => Return (items, fin)
  | _ => Raise (TypeError ("'" ++ type_name v ++ "' object is not iterable")%string)
  end.

(** Truth value of a [str]: empty is false. *)
Definition str_truthy (s : string) : bool := negb (String.eqb s "").

(** Truth value of an [Optional[str]]: [None] and [''] are false. *)
Definition opt_str_truthy (o : option string) : bool :=
  match o with
  | Some s => str_truthy s
  | None => false
  end.

(** *** [str] methods *)

Definition isspace (c : ascii) : bool :=
  let n := N_of_ascii c in
  (((9 <=? n) && (n <=? 13)) || ((28 <=? n) && (n <=? 32)) || (n =? 133) || (n =? 160))%N.

Definition lower_char (c : ascii) : ascii :=
  let n := N_of_ascii c in
  if (((65 <=? n) && (n <=? 90)) || ((192 <=? n) && (n <=? 222) && negb (n =? 215)))%N
  then ascii_of_N (n + 32) else c.

(** [s.lower()] *)
Fixpoint lower (s : string) : string :=
  match s with
  | EmptyString => EmptyString
  | String c s' => String (lower_char c) (lower s')
  end.

Definition cons_nonempty (w : string) (ws : list string) : list string :=
  if String.eqb w "" then ws else w :: ws.

(** The word being read at the front of [s] and the words after it. *)
Fixpoint words_from (s : string) : string * list string :=
  match s with
  | EmptyString => (EmptyString, [])
  | String c s' =>
      let (w, ws) := words_from s' in
      if isspace c then (EmptyString, cons_nonempty w ws) else (String c w, ws)
  end.

(** [s.split()] *)
Definition split_ws (s : string) : list string :=
  let (w, ws) := words_from s in cons_nonempty w ws.

(** The piece at the front of [s] and the pieces after it; [skip] counts the
    characters of a separator occurrence still to pass over. *)
Fixpoint pieces_from (sep : string) (skip : nat) (s : string) : string * list string :=
  match s with
  | EmptyString => (EmptyString, [])
  | String c s' =>
      match skip with
      | S k => pieces_from sep k s'
      | O =>
          if String.prefix sep s
          then let (w, ws) := pieces_from sep (String.length sep - 1) s' in
               (EmptyString, w :: ws)
          else let (w, ws) := pieces_from sep 0 s' in (String c w, ws)
      end
  end.

(** [s.split(sep)] for a non-empty [sep] *)
Definition split (sep s : string) : list string :=
  let (w, ws) := pieces_from sep 0 s in w :: ws.

Fixpoint lstrip_with (p : ascii -> bool) (s : string) : string :=
  match s with
  | EmptyString => EmptyString
  | String c s' => if p c then lstrip_with p s' else s
  end.

Fixpoint rstrip_with (p : ascii -> bool) (s : string) : string :=
  match s with
  | EmptyString => EmptyString
  | String c s' =>
      let r := rstrip_with p s' in
      if String.eqb r "" && p c then EmptyString else String c r
  end.

Definition strip_with (p : ascii -> bool) (s : string) : string :=
  rstrip_with p (lstrip_with p s).

(** [s.strip()] *)
Definition strip (s : string) : string := strip_with isspace s.

Fixpoint char_in (chars : string) (c : ascii) : bool :=
  match chars with
  | EmptyString => false
  | String c' chars' => Ascii.eqb c' c || char_in chars' c
  end.

(** [s.strip(chars)] *)
Definition strip_chars (chars s : string) : string := strip_with (char_in chars) s.

(** [len(s)] *)
Definition len_str (s : string) : Z := Z.of_nat (String.length s).

(** [''.join(l)] *)
Definition join (l : list string) : string := String.concat "" l.

(** *** [float] arithmetic *)

(** [x / y] *)
Definition truediv (x y : float) : outcome float :=
  if PrimFloat.is_zero y then Raise (ZeroDivisionError "float division by zero")
  else Return (x / y)%float.

(** [a / b] on integers, rounded to nearest-even. *)
Definition rne_div (a b : Z) : Z :=
  let q := (a / b)%Z in
  let r := (a mod b)%Z in
  match (2 * r ?= b)%Z with
  | Lt => q
  | Gt => (q + 1)%Z
  | Eq => if Z.even q then q else (q + 1)%Z
  end.

(** The integer nearest to [m * 2^e * 10^nd], ties to even. *)
Definition scaled (nd : nat) (m : positive) (e : Z) : Z :=
  if (0 <=? e)%Z then (Zpos m * 2 ^ e * 10 ^ Z.of_nat nd)%Z
  else rne_div (Zpos m * 10 ^ Z.of_nat nd) (2 ^ (- e)).

(** The binary64 nearest to the quotient of two positive integers. *)
Definition nearest_quotient (s : bool) (n d : positive) : float :=
  SF2Prim (SFdiv prec emax (S754_finite s n 0) (S754_finite false d 0)).

(** [round(x, nd)] on a float, for the small non-negative [nd] this program
    passes: CPython rounds the exact value of [x] to [nd] decimals, ties to
    even, and returns the float nearest to that decimal; infinities and NaN
    round to themselves, and the sign of [x] is kept on a zero result. *)
Definition round (x : float) (nd : nat) : float :=
  match Prim2SF x with
  | S754_finite s m e =>
      match scaled nd m e with
      | Zpos n => nearest_quotient s n (Z.to_pos (10 ^ Z.of_nat nd))
      | _ => if s then neg_zero else zero
      end
  | _ => x
  end.

(** [a / b] on non-negative [int]s: the float nearest to the quotient. *)
Definition int_truediv (a b : Z) : outcome float :=
  match a, b with
  | _, Z0 => Raise (ZeroDivisionError "division by zero")
  | Z0, _ => Return zero
  | Zpos n, Zpos d => Return (nearest_quotient false n d)
  | Zneg n, Zpos d => Return (nearest_quotient true n d)
  | Zpos n, Zneg d => Return (nearest_quotient true n d)
  | Zneg n, Zneg d => Return (nearest_quotient false n d)
  end.

End Py.

(** ** [src/tools/custom_tools.py] *)

Module Tools.
Import Py.

(** [try: body  except Exception as e: return handler(e)] around a body that
    returns. *)
Definition try_except {A} (body : outcome A) (handler : exn -> outcome A) : outcome A :=
  match body with
  | Return a => Return a
  | Raise e => handler e
  end.

(** [d[k]] on a dict with string keys. *)
Definition getitem {V} (d : list (string * V)) (k : string) : outcome V :=
  match dict_get d k with
  | Some v => Return v
  | None => Raise (KeyError k)
  end.

(** [d[k] = v]: an existing key keeps its place, a new key goes last. *)
Fixpoint dict_set {V} (d : list (string * V)) (k : string) (v : V) : list (string * V) :=
  match d with
  | [] => [(k, v)]
  | (k', v') :: d' =>
      if String.eqb k' k then (k', v) :: d' else (k', v') :: dict_set d' k v
  end.

(** [d.get(k, default)] *)
Definition dict_get_default {V} (d : list (string * V)) (k : string) (default : V) : V :=
  match dict_get d k with
  | Some v => v
  | None => default
  end.

(** [l[:n]] *)
Definition slice_to {A} (l : list A) (n : Z) : list A :=
  if (0 <=? n)%Z then firstn (Z.to_nat n) l
  else firstn (Z.to_nat (Z.of_nat (List.length l) + n)) l.

(** *** [get_most_common_words] *)

Definition punctuation : string :=
  ".,!?;:" ++ String "034"%char "()[]{}".

(** One round of the [for word in words] loop. *)
Definition count_word (word_count : list (string * Z)) (word : string) : list (string * Z) :=
  let clean_word := strip_chars punctuation (lower word) in
  if str_truthy clean_word && (2 <? len_str clean_word)%Z
  then dict_set word_count clean_word (dict_get_default word_count clean_word 0 + 1)%Z
  else word_count.

(** Puts [x] in front of the first entry whose count is not larger: entries
    with equal counts stay in their order, as in a stable sort. *)
Fixpoint insert_desc (x : string * Z) (l : list (string * Z)) : list (string * Z) :=
  match l with
  | [] => [x]
  | y :: l' => if (snd x <? snd y)%Z then y :: insert_desc x l' else x :: l
  end.

(** [sorted(items, key=lambda x: x[1], reverse=True)] *)
Definition sorted_by_count_desc (items : list (string * Z)) : list (string * Z) :=
  fold_right insert_desc [] items.

Definition get_most_common_words (words : list string) (top_n : Z) : list pyval :=
  let word_count := fold_left count_word words [] in
  let sorted_words := sorted_by_count_desc word_count in
  map (fun wc => PDict [("word", PStr (fst wc)); ("count", PInt (snd wc))])
      (slice_to sorted_words top_n).

(** *** [text_analyzer_tool] *)

Definition newline : string := String "010"%char EmptyString.

(** [[s for s in l if s.strip()]] *)
Definition nonblank (l : list string) : list string :=
  filter (fun s => str_truthy (strip s)) l.

Definition len {A} (l : list A) : Z := Z.of_nat (List.length l).

Definition text_analyzer_tool (text : string) : outcome pydict :=
  try_except
    (let words := split_ws text in
     let sentences := split "." text in
     let paragraphs := split (newline ++ newline) text in
     obind (int_truediv (len words) (Z.max (len (nonblank sentences)) 1)) (fun average =>
     Return
       [("character_count", PInt (len_str text));
        ("word_count", PInt (len words));
        ("sentence_count", PInt (len (nonblank sentences)));
        ("paragraph_count", PInt (len (nonblank paragraphs)));
        ("average_words_per_sentence", PFloat (round average 2));
        ("most_common_words", PList (get_most_common_words words 5))]))
    (fun e => Return [("error", PStr (exn_str e))]).

(** *** [convert_temperature] *)

Definition convert_temperature (value : float) (from_unit to_unit : string) : outcome float :=
  obind
    (if String.eqb (lower from_unit) "fahrenheit"
     then truediv ((value - 32) * 5) 9
     else if String.eqb (lower from_unit) "kelvin"
     then Return (value - 273.15)%float
     else Return value)
    (fun celsius =>
       if String.eqb (lower to_unit) "fahrenheit"
       then obind (truediv (celsius * 9) 5) (fun x => Return (x + 32)%float)
       else if String.eqb (lower to_unit) "kelvin"
       then Return (celsius + 273.15)%float
       else Return celsius).

(** *** [unit_converter_tool] *)

Definition conversions : list (string * list (string * float)) :=
  [("length",
    [("meter", 1.0%float);
     ("kilometer", 1000.0%float);
     ("centimeter", 0.01%float);
     ("millimeter", 0.001%float);
     ("inch", 0.0254%float);
     ("foot", 0.3048%float);
     ("yard", 0.9144%float);
     ("mile", 1609.34%float)]);
   ("weight",
    [("kilogram", 1.0%float);
     ("gram", 0.001%float);
     ("pound", 0.453592%float);
     ("ounce", 0.0283495%float);
     ("ton", 1000.0%float)]);
   ("temperature", [])].

(** The mapping of the final [return] of the [try] block. *)
Definition conversion_result (value : float) (from_unit to_unit unit_type : string)
    (result : float) : pydict :=
  [("original_value", PFloat value);
   ("original_unit", PStr from_unit);
   ("converted_value", PFloat (round result 6));
   ("converted_unit", PStr to_unit);
   ("unit_type", PStr unit_type)].

Definition unit_converter_tool (value : float) (from_unit to_unit unit_type : string)
    : outcome pydict :=
  try_except
    (if String.eqb unit_type "temperature"
     then
       obind (convert_temperature value from_unit to_unit) (fun result =>
       Return (conversion_result value from_unit to_unit unit_type result))
     else
       if negb (dict_has conversions unit_type)
       then Return [("error", PStr ("Unknown unit type: " ++ unit_type))]
       else
         obind (getitem conversions unit_type) (fun unit_map =>
         if negb (dict_has unit_map from_unit) || negb (dict_has unit_map to_unit)
         then Return [("error", PStr ("Unknown unit for " ++ unit_type))]
         else
           obind (getitem unit_map from_unit) (fun from_factor =>
           let base_value := (value * from_factor)%float in
           obind (getitem unit_map to_unit) (fun to_factor =>
           obind (truediv base_value to_factor) (fun result =>
           Return (conversion_result value from_unit to_unit unit_type result))))))
    (fun e => Return [("error", PStr (exn_str e))]).

End Tools.

(** ** [src/config/ollama_config.py] *)

Module Config.
Import Py.

(** The fields [OllamaConfig.__init__] reads from the environment once; the
    module-level instance [ollama_config] is passed where it is used. *)
Record OllamaConfig := {
  base_url : string;
  default_model : string;
  timeout : Z
}.

Definition get_model_config (cfg : OllamaConfig) (model_name : option string) : pydict :=
  let model := if opt_str_truthy model_name
               then match model_name with Some m => m | None => default_model cfg end
               else default_model cfg in
  [("base_url", PStr (base_url cfg));
   ("model", PStr model);
   ("timeout", PInt (timeout cfg));
   ("stream", PBool false);
   ("temperature", PFloat 0.7);
   ("max_tokens", PInt 2048)].

End Config.

(** ** [src/agents/ollama_agent.py] *)

Module Agent.
Import Py Config.

(** A tool is an opaque callable, known by its name. *)
Definition Tool := string.

(** The object [strands.Agent(name=..., tools=..., **kwargs)] builds, as far
    as this program determines it: the arguments it was given. *)
Record StrandAgent := {
  sa_name : string;
  sa_tools : list Tool;
  sa_kwargs : pydict
}.

(** The [strands] library, as far as this program meets it: whether
    [Agent(name=..., tools=..., **kwargs)] returns, or the exception it
    raises (on a keyword it does not know, on a tool it cannot load). The
    constructor returns on the calls the presets make: no further keyword,
    and no tool or the calculator of [strands_tools]. *)
Record Strands := {
  constructor_fault : string -> list Tool -> pydict -> option exn;
  presets_are_built :
    forall name,
      constructor_fault name [] [] = None /\
      constructor_fault name ["calculator"] [] = None
}.

Record OllamaStrandAgent := {
  name : string;
  model : string;
  tools : list Tool;
  system_prompt : option string;
  config : pydict;
  strand_agent : StrandAgent
}.

Inductive level := INFO | ERROR.

(** The keyword arguments of one call into the [ollama] client library. *)
Record Request := {
  req_model : string;
  req_messages : list pyval;
  req_options : pydict
}.

Inductive call :=
| CallChat (r : Request)
| CallAsyncChat (r : Request)
| CallShow (model : string)
| CallList.

(** What the client library and the server behind it answer. *)
Record Ollama := {
  ollama_chat : Request -> outcome pyval;
  ollama_async_chat : Request -> outcome pyval;
  ollama_show : string -> outcome pyval;
  ollama_list : outcome pyval
}.

(** The state a method runs in: the object [self], the log records written,
    and the calls made into the client library, oldest first. *)
Record World := {
  self : OllamaStrandAgent;
  log : list (level * string);
  calls : list call
}.

Definition M (A : Type) : Type := World -> outcome A * World.

Definition ret {A} (a : A) : M A := fun w => (Return a, w).

Definition raise {A} (e : exn) : M A := fun w => (Raise e, w).

Definition bind {A B} (m : M A) (k : A -> M B) : M B :=
  fun w =>
    match m w with
    | (Return a, w') => k a w'
    | (Raise e, w') => (Raise e, w')
    end.

Declare Scope py_scope.
Delimit Scope py_scope with py.
Notation "x <- m ;; k" := (bind m (fun x => k))
  (at level 61, m at next level, right associativity) : py_scope.
Notation "m ;; k" := (bind m (fun _ => k))
  (at level 61, right associativity) : py_scope.
Local Open Scope py_scope.

Definition lift {A} (o : outcome A) : M A := fun w => (o, w).

Definition get_self : M OllamaStrandAgent := fun w => (Return (self w), w).

Definition set_self (a : OllamaStrandAgent) : M unit :=
  fun w => (Return tt, {| self := a; log := log w; calls := calls w |}).

Definition add_log (w : World) (l : level) (msg : string) : World :=
  {| self := self w; log := log w ++ [(l, msg)]; calls := calls w |}.

Definition add_call (w : World) (c : call) : World :=
  {| self := self w; log := log w; calls := calls w ++ [c] |}.

(** [logger.info(msg)], [logger.error(msg)] *)
Definition logger (l : level) (msg : string) : M unit :=
  fun w => (Return tt, add_log w l msg).

Definition record_call (c : call) : M unit :=
  fun w => (Return tt, add_call w c).

(** [try: body  except Exception as e: handler(e)] *)
Definition try_except {A} (body : M A) (handler : exn -> M A) : M A :=
  fun w =>
    match body w with
    | (Return a, w') => (Return a, w')
    | (Raise e, w') => handler e w'
    end.

(** The first key of [**kwargs] that repeats a keyword the call site writes
    out: Python refuses such a call before the callee runs. *)
Definition repeated_keyword (explicit : list string) (kwargs : pydict) : option string :=
  option_map fst (find (fun kv => existsb (String.eqb (fst kv)) explicit) kwargs).

Definition multiple_values (callee k : string) : exn :=
  TypeError (callee ++ " got multiple values for keyword argument '" ++ k ++ "'")%string.

Section Methods.

Variable srv : Ollama.
Variable lib : Strands.

(** [ollama.chat(model=model, messages=messages, **kwargs)] *)
Definition call_chat (model : string) (messages : list pyval) (kwargs : pydict) : M pyval :=
  match repeated_keyword ["model"; "messages"] kwargs with
  | Some k => raise (multiple_values "ollama._client.Client.chat()" k)
  | None =>
      let r := {| req_model := model; req_messages := messages; req_options := kwargs |} in
      record_call (CallChat r) ;;
      lift (ollama_chat srv r)
  end.

(** [ollama.chat(model=model, messages=messages, stream=True, **kwargs)] *)
Definition call_chat_stream (model : string) (messages : list pyval) (kwargs : pydict) : M pyval :=
  match repeated_keyword ["model"; "messages"; "stream"] kwargs with
  | Some k => raise (multiple_values "ollama._client.Client.chat()" k)
  | None =>
      let r := {| req_model := model; req_messages := messages;
                  req_options := ("stream", PBool true) :: kwargs |} in
      record_call (CallChat r) ;;
      lift (ollama_chat srv r)
  end.

(** [await ollama.AsyncClient().chat(model=model, messages=messages, **kwargs)],
    the coroutine run to its end. *)
Definition call_async_chat (model : string) (messages : list pyval) (kwargs : pydict) : M pyval :=
  match repeated_keyword ["model"; "messages"] kwargs with
  | Some k => raise (multiple_values "ollama._client.AsyncClient.chat()" k)
  | None =>
      let r := {| req_model := model; req_messages := messages; req_options := kwargs |} in
      record_call (CallAsyncChat r) ;;
      lift (ollama_async_chat srv r)
  end.

Definition system_message (content : string) : pyval :=
  PDict [("role", PStr "system"); ("content", PStr content)].

Definition user_message (content : string) : pyval :=
  PDict [("role", PStr "user"); ("content", PStr content)].

(** [messages.append({"role": "system", "content": self.system_prompt})]
    under [if self.system_prompt:] *)
Definition append_system (a : OllamaStrandAgent) (messages : list pyval) : list pyval :=
  match system_prompt a with
  | Some prompt => if str_truthy prompt then messages ++ [system_message prompt] else messages
  | None => messages
  end.

Definition chat (message : string) (kwargs : pydict) : M pyval :=
  try_except
    (a <- get_self ;;
     let messages := [] in
     let messages := append_system a messages in
     let messages := messages ++ [user_message message] in
     response <- call_chat (model a) messages kwargs ;;
     msg <- lift (subscript response "message") ;;
     lift (subscript msg "content"))
    (fun e =>
       logger ERROR ("Error in chat: " ++ exn_str e) ;;
       ret (PStr ("Error: " ++ exn_str e))).

Definition async_chat (message : string) (kwargs : pydict) : M pyval :=
  try_except
    (a <- get_self ;;
     let messages := [] in
     let messages := append_system a messages in
     let messages := messages ++ [user_message message] in
     response <- call_async_chat (model a) messages kwargs ;;
     msg <- lift (subscript response "message") ;;
     lift (subscript msg "content"))
    (fun e =>
       logger ERROR ("Error in async_chat: " ++ exn_str e) ;;
       ret (PStr ("Error: " ++ exn_str e))).

(** *** [stream_chat]: a generator

    Calling [stream_chat] runs nothing; each [next] resumes the body until its
    next [yield]. The states are the places where the body can be suspended. *)
Inductive generator :=
| Created (message : string) (kwargs : pydict)
| InLoop (rest : list pyval) (fin : option exn)
| InHandler
| Finished.

(** What a [next] gives its caller. No exception can leave the body: all of
    it is inside the [try] block, and the handler only logs and yields. *)
Inductive resumed :=
| Yield (v : pyval)
| StopIteration.

Definition stream_chat (message : string) (kwargs : pydict) : generator :=
  Created message kwargs.

(** The [except Exception as e] block: one [yield], where the body stays
    suspended. *)
Definition stream_handler (e : exn) (w : World) : resumed * generator * World :=
  let (_, w') := logger ERROR ("Error in stream_chat: " ++ exn_str e) w in
  (Yield (PStr ("Error: " ++ exn_str e)), InHandler, w').

(** The [for chunk in ...] loop from the point where the iterator is asked
    for its next item. *)
Definition stream_loop (rest : list pyval) (fin : option exn) (w : World)
    : resumed * generator * World :=
  match rest with
  | chunk :: rest' =>
      match obind (subscript chunk "message") (fun msg => subscript msg "content") with
      | Return fragment => (Yield fragment, InLoop rest' fin, w)
      | Raise e => stream_handler e w
      end
  | [] =>
      match fin with
      | None => (StopIteration, Finished, w)
      | Some e => stream_handler e w
      end
  end.

(** The body from its first line to the first item of the loop. *)
Definition stream_start (message : string) (kwargs : pydict) (w : World)
    : resumed * generator * World :=
  match
    (a <- get_self ;;
     let messages := [] in
     let messages := append_system a messages in
     let messages := messages ++ [user_message message] in
     response <- call_chat_stream (model a) messages kwargs ;;
     lift (py_iter response)) w
  with
  | (Return (items, fin), w') => stream_loop items fin w'
  | (Raise e, w') => stream_handler e w'
  end.

Definition next (g : generator) (w : World) : resumed * generator * World :=
  match g with
  | Created message kwargs => stream_start message kwargs w
  | InLoop rest fin => stream_loop rest fin w
  | InHandler => (StopIteration, Finished, w)
  | Finished => (StopIteration, Finished, w)
  end.

(** A consumer that calls [next] until the generator stops, at most [fuel]
    times: the fragments it was given, in order. *)
Fixpoint consume (fuel : nat) (g : generator) (w : World)
    : option (list pyval * generator * World) :=
  match fuel with
  | O => None
  | S fuel' =>
      match next g w with
      | (Yield v, g', w') =>
          match consume fuel' g' w' with
          | Some (vs, g'', w'') => Some (v :: vs, g'', w'')
          | None => None
          end
      | (StopIteration, g', w') => Some ([], g', w')
      end
  end.

(** *** The other methods *)

Definition get_model_info : M pyval :=
  try_except
    (a <- get_self ;;
     record_call (CallShow (model a)) ;;
     lift (ollama_show srv (model a)))
    (fun e =>
       logger ERROR ("Error getting model info: " ++ exn_str e) ;;
       ret (PDict [("error", PStr (exn_str e))])).

(** [[f(x) for x in it]] over the items [it] hands out. *)
Fixpoint comprehension (f : pyval -> outcome pyval) (items : list pyval) (fin : option exn)
    : outcome (list pyval) :=
  match items with
  | x :: items' =>
      obind (f x) (fun y =>
      obind (comprehension f items' fin) (fun ys =>
      Return (y :: ys)))
  | [] =>
      match fin with
      | None => Return []
      | Some e => Raise e
      end
  end.

Definition list_available_models : M (list pyval) :=
  try_except
    (record_call CallList ;;
     models <- lift (ollama_list srv) ;;
     entries <- lift (subscript models "models") ;;
     it <- lift (py_iter entries) ;;
     lift (comprehension (fun model => subscript model "name") (fst it) (snd it)))
    (fun e =>
       logger ERROR ("Error listing models: " ++ exn_str e) ;;
       ret []).

(** [strands.Agent(name=name, tools=tools, **kwargs)] *)
Definition new_StrandAgent (name : string) (tools : list Tool) (kwargs : pydict)
    : outcome StrandAgent :=
  match constructor_fault lib name tools kwargs with
  | Some e => Raise e
  | None => Return {| sa_name := name; sa_tools := tools; sa_kwargs := kwargs |}
  end.

Definition add_tool (tool : Tool) : M unit :=
  a <- get_self ;;
  let appended := tools a ++ [tool] in
  set_self {| name := name a; model := model a; tools := appended;
              system_prompt := system_prompt a; config := config a;
              strand_agent := strand_agent a |} ;;
  rebuilt <- lift (new_StrandAgent (name a) appended []) ;;
  set_self {| name := name a; model := model a; tools := appended;
              system_prompt := system_prompt a; config := config a;
              strand_agent := rebuilt |} ;;
  logger INFO ("Added tool to agent '" ++ name a ++ "'").

(** [__str__] *)
Definition to_str : M string :=
  a <- get_self ;;
  ret ("OllamaStrandAgent(name=" ++ name a ++ ", model=" ++ model a ++ ")")%string.

End Methods.

(** *** [__init__]

    A constructor runs before there is a [self]: it returns the new object
    and adds to the log. *)
Definition Ctor (A : Type) : Type :=
  list (level * string) -> outcome A * list (level * string).

Definition init (lib : Strands) (cfg : OllamaConfig) (name_ : string) (model_ : option string)
    (tools_ : option (list Tool)) (system_prompt_ : option string) (kwargs : pydict)
    : Ctor OllamaStrandAgent :=
  fun lg =>
    let the_model :=
      match model_ with
      | Some m => if str_truthy m then m else default_model cfg
      | None => default_model cfg
      end in
    let the_tools :=
      match tools_ with
      | Some (t :: ts) => t :: ts
      | _ => []
      end in
    let the_config := get_model_config cfg (Some the_model) in
    match new_StrandAgent lib name_ the_tools kwargs with
    | Raise e => (Raise e, lg)
    | Return sa =>
        (Return {| name := name_; model := the_model; tools := the_tools;
                   system_prompt := system_prompt_; config := the_config;
                   strand_agent := sa |},
         lg ++ [(INFO, "Initialized OllamaStrandAgent '" ++ name_ ++ "' with model '"
                         ++ the_model ++ "'")%string])
    end.

End Agent.

(** ** [src/agents/specialized_agents.py] *)

Module Specialized.
Import Py Config Agent.

(** [strands_tools.calculator] *)
Definition calculator : Tool := "calculator".

(** A triple-quoted literal, line by line. *)
Definition text (lines : list string) : string :=
  String.concat (String "010"%char EmptyString) lines.

Definition MathAgent_system_prompt : string :=
  text
    ["";
     "        You are a mathematical expert assistant. You excel at:";
     "        - Solving complex mathematical problems";
     "        - Explaining mathematical concepts clearly";
     "        - Performing calculations accurately";
     "        - Working with statistics, algebra, calculus, and more";
     "        ";
     "        Always show your work step-by-step and use the calculator tool when needed.";
     "        "].

Definition ResearchAgent_system_prompt : string :=
  text
    ["";
     "        You are a research specialist assistant. You excel at:";
     "        - Finding and analyzing information from various sources";
     "        - Summarizing complex topics";
     "        - Fact-checking and verification";
     "        - Providing comprehensive research reports";
     "        ";
     "        Always cite your sources and provide accurate, up-to-date information.";
     "        "].

Definition CodeAgent_system_prompt : string :=
  text
    ["";
     "        You are a programming expert assistant. You excel at:";
     "        - Writing clean, efficient code in multiple languages";
     "        - Debugging and troubleshooting code issues";
     "        - Explaining programming concepts";
     "        - Code review and optimization";
     "        - Best practices and design patterns";
     "        ";
     "        Always provide working code examples with clear explanations.";
     "        "].

Definition AnalysisAgent_system_prompt : string :=
  text
    ["";
     "        You are a data analysis expert assistant. You excel at:";
     "        - Analyzing datasets and finding patterns";
     "        - Creating data visualizations";
     "        - Statistical analysis and interpretation";
     "        - Business intelligence and reporting";
     "        - Machine learning concepts";
     "        ";
     "        Always provide clear insights with supporting evidence.";
     "        "].

Definition CreativeAgent_system_prompt : string :=
  text
    ["";
     "        You are a creative writing expert assistant. You excel at:";
     "        - Creative writing and storytelling";
     "        - Content creation for various formats";
     "        - Brainstorming and ideation";
     "        - Editing and improving existing content";
     "        - Adapting tone and style for different audiences";
     "        ";
     "        Always be creative, engaging, and original in your responses.";
     "        "].

(** [MathAgent.__init__(model="llama3.2")]; [None] stands for the argument left out. *)
Definition MathAgent (lib : Strands) (cfg : OllamaConfig) (model : option string)
    : Ctor OllamaStrandAgent :=
  let model := match model with Some m => m | None => "llama3.2" end in
  init lib cfg "MathAgent" (Some model) (Some [calculator]) (Some MathAgent_system_prompt) [].

(** [ResearchAgent.__init__(model="llama3.2")]; [None] stands for the argument left out. *)
Definition ResearchAgent (lib : Strands) (cfg : OllamaConfig) (model : option string)
    : Ctor OllamaStrandAgent :=
  let model := match model with Some m => m | None => "llama3.2" end in
  init lib cfg "ResearchAgent" (Some model) (Some []) (Some ResearchAgent_system_prompt) [].

(** [CodeAgent.__init__(model="codellama")]; [None] stands for the argument left out. *)
Definition CodeAgent (lib : Strands) (cfg : OllamaConfig) (model : option string)
    : Ctor OllamaStrandAgent :=
  let model := match model with Some m => m | None => "codellama" end in
  init lib cfg "CodeAgent" (Some model) (Some []) (Some CodeAgent_system_prompt) [].

(** [AnalysisAgent.__init__(model="llama3.2")]; [None] stands for the argument left out. *)
Definition AnalysisAgent (lib : Strands) (cfg : OllamaConfig) (model : option string)
    : Ctor OllamaStrandAgent :=
  let model := match model with Some m => m | None => "llama3.2" end in
  init lib cfg "AnalysisAgent" (Some model) (Some [calculator]) (Some AnalysisAgent_system_prompt) [].

(** [CreativeAgent.__init__(model="llama3.2")]; [None] stands for the argument left out. *)
Definition CreativeAgent (lib : Strands) (cfg : OllamaConfig) (model : option string)
    : Ctor OllamaStrandAgent :=
  let model := match model with Some m => m | None => "llama3.2" end in
  init lib cfg "CreativeAgent" (Some model) (Some []) (Some CreativeAgent_system_prompt) [].

Definition agents
    : list (string * (Strands -> OllamaConfig -> option string -> Ctor OllamaStrandAgent)) :=
  [("math", MathAgent);
   ("research", ResearchAgent);
   ("code", CodeAgent);
   ("analysis", AnalysisAgent);
   ("creative", CreativeAgent)].

(** [str(list(agents.keys()))] *)
Definition agent_keys_repr : string :=
  "['math', 'research', 'code', 'analysis', 'creative']".

Definition create_agent (lib : Strands) (cfg : OllamaConfig) (agent_type : string)
    (model : option string) : Ctor OllamaStrandAgent :=
  fun lg =>
    if negb (dict_has agents (lower agent_type))
    then (Raise (ValueError ("Unknown agent type: " ++ agent_type
                             ++ ". Available types: " ++ agent_keys_repr)%string), lg)
    else
      match Tools.getitem agents (lower agent_type) with
      | Raise e => (Raise e, lg)
      | Return agent_class =>
          if opt_str_truthy model
          then agent_class lib cfg model lg
          else agent_class lib cfg None lg
      end.

End Specialized.

(** ** Notions the properties are stated with *)

Module Spec.
Import Py Tools Config Agent Specialized.

(** *** Tool results *)

(** The temperature scales [convert_temperature] names. *)
Definition temperature_units : list string := ["celsius"; "fahrenheit"; "kelvin"].

(** A unit name is known for a unit type: a key of the type's table, or for
    temperatures one of the three scales, in any letter case. *)
Definition known_unit (unit_type unit : string) : bool :=
  if String.eqb unit_type "temperature"
  then existsb (String.eqb (lower unit)) temperature_units
  else
    match dict_get conversions unit_type with
    | Some unit_map => dict_has unit_map unit
    | None => false
    end.

(** The scale a temperature unit name is read as. *)
Definition as_celsius (unit : string) : string :=
  if String.eqb (lower unit) "fahrenheit" || String.eqb (lower unit) "kelvin"
  then unit else "celsius".

(** A unit name that is neither of the two scales [convert_temperature]
    tests for. *)
Definition default_scale (unit : string) : Prop :=
  lower unit <> "fahrenheit" /\ lower unit <> "kelvin".

(** A mapping that signals failure. *)
Definition is_error_result (d : pydict) : Prop :=
  dict_has d "error" = true /\ dict_has d "converted_value" = false.

(** A mapping that carries a conversion. *)
Definition is_conversion_result (d : pydict) : Prop :=
  dict_has d "converted_value" = true /\ dict_has d "error" = false.

(** *** Conversations and exchanges *)

(** The message sequence the claim as worded expects: a system message
    whenever the prompt is not [None]. *)
Definition conversation_as_claimed (a : OllamaStrandAgent) (message : string) : list pyval :=
  match system_prompt a with
  | Some prompt => [system_message prompt; user_message message]
  | None => [user_message message]
  end.

(** The message sequence for a prompt that is [None] or empty, and for one
    that is neither. *)
Definition conversation (a : OllamaStrandAgent) (message : string) : list pyval :=
  match system_prompt a with
  | Some prompt =>
      if String.eqb prompt ""
      then [user_message message]
      else [system_message prompt; user_message message]
  | None => [user_message message]
  end.

Definition chat_request (a : OllamaStrandAgent) (message : string) (kwargs : pydict) : Request :=
  {| req_model := model a; req_messages := conversation a message; req_options := kwargs |}.

Definition stream_request (a : OllamaStrandAgent) (message : string) (kwargs : pydict)
    : Request :=
  {| req_model := model a; req_messages := conversation a message;
     req_options := ("stream", PBool true) :: kwargs |}.

(** The calls one chat operation adds to the trace: none when Python refuses
    the keyword arguments, one otherwise. *)
Definition requests_made (explicit : list string) (kwargs : pydict) (c : call) : list call :=
  match repeated_keyword explicit kwargs with
  | Some _ => []
  | None => [c]
  end.

(** The content field of a response or of a streamed chunk. *)
Definition response_content (response : pyval) : outcome pyval :=
  obind (subscript response "message") (fun msg => subscript msg "content").

(** The text a failure is turned into. *)
Definition error_text (e : exn) : pyval := PStr ("Error: " ++ exn_str e).

(** One request and the reading of its response: the content on success,
    the fault otherwise (the call refused, the library raising, a response
    without the field). *)
Definition exchange (reply : Request -> outcome pyval) (callee : string)
    (a : OllamaStrandAgent) (message : string) (kwargs : pydict) : outcome pyval :=
  match repeated_keyword ["model"; "messages"] kwargs with
  | Some k => Raise (multiple_values callee k)
  | None => obind (reply (chat_request a message kwargs)) response_content
  end.

Definition content_or_error_text (o : outcome pyval) : pyval :=
  match o with
  | Return content => content
  | Raise e => error_text e
  end.

(** The chunks of a stream carry these fragments, one each. *)
Definition carries (chunks fragments : list pyval) : Prop :=
  Forall2 (fun chunk fragment => response_content chunk = Return fragment) chunks fragments.


(** *** Presets *)

Definition preset_names : list string :=
  ["math"; "research"; "code"; "analysis"; "creative"].

(** The agent a preset stands for, on the model asked for or its default. *)
Definition is_preset (a : OllamaStrandAgent) (agent_name default : string)
    (preset_tools : list Tool) (prompt : string) (asked : option string) : Prop :=
  name a = agent_name /\
  model a = (match asked with
             | Some m => if String.eqb m "" then default else m
             | None => default
             end) /\
  tools a = preset_tools /\
  system_prompt a = Some prompt /\
  strand_agent a = {| sa_name := agent_name; sa_tools := preset_tools; sa_kwargs := [] |}.

End Spec.

(** ** Sample servers and agents, for concrete runs *)

Module Demo.
Import Py Config Agent.

Definition cfg : OllamaConfig :=
  {| base_url := "http://localhost:11434"; default_model := "llama3.2"; timeout := 30 |}.

(** [OllamaStrandAgent(name="TestAgent", model="deepseek-r1:7b",
    system_prompt=prompt)] *)
Definition agent (prompt : option string) : OllamaStrandAgent :=
  {| name := "TestAgent";
     model := "deepseek-r1:7b";
     tools := [];
     system_prompt := prompt;
     config := get_model_config cfg (Some "deepseek-r1:7b");
     strand_agent := {| sa_name := "TestAgent"; sa_tools := []; sa_kwargs := [] |} |}.

Definition world (prompt : option string) : World :=
  {| self := agent prompt; log := []; calls := [] |}.

(** A [strands] library that knows no further keyword and loads the
    calculator only. *)
Definition strands : Strands :=
  {| constructor_fault := fun name tools kwargs =>
       match kwargs with
       | (k, _) :: _ =>
           Some (TypeError ("Agent.__init__() got an unexpected keyword argument '"
                            ++ k ++ "'")%string)
       | [] =>
           if forallb (String.eqb "calculator") tools
           then None
           else Some (ValueError "Failed to load tool")
       end;
     presets_are_built := fun name => conj eq_refl eq_refl |}.

Definition reply (content : string) : pyval :=
  PDict [("model", PStr "deepseek-r1:7b");
         ("message", PDict [("role", PStr "assistant"); ("content", PStr content)])].

Definition ConnectionError : exn := mk_exn "ConnectionError" "connection lost".

(** A server that streams three fragments and answers a plain request with
    their concatenation, and that has two models. *)
Definition server : Ollama :=
  {| ollama_chat := fun r =>
       if dict_has (req_options r) "stream"
       then Return (PIter [reply "The"; reply " answer"; reply " is 4"] None)
       else Return (reply "The answer is 4");
     ollama_async_chat := fun r => Return (reply "The answer is 4");
     ollama_show := fun m => Return (PDict [("modelfile", PStr m)]);
     ollama_list :=
       Return (PDict [("models", PList [PDict [("name", PStr "llama3.2")];
                                        PDict [("name", PStr "codellama")]])]) |}.


(** A server whose connection drops: after one fragment when streaming, at
    once otherwise. *)
Definition broken_server : Ollama :=
  {| ollama_chat := fun r =>
       if dict_has (req_options r) "stream"
       then Return (PIter [reply "The"] (Some ConnectionError))
       else Raise ConnectionError;
     ollama_async_chat := fun r => Raise ConnectionError;
     ollama_show := fun m => Raise ConnectionError;
     ollama_list := Raise ConnectionError |}.

End Demo.

(** ** [src/tools/custom_tools.py]: the tools that reach outside the program *)

Module HostTools.
Import Py Agent.

(** What the file system answers: [os.path.exists(path)], and
    [open(path, 'r', encoding='utf-8')] followed by [file.read()]. *)
Record FileSystem := {
  path_exists : string -> bool;
  read_text : string -> outcome string
}.

(** A result together with the records written to the module's logger. *)
Definition Logged (A : Type) : Type := (A * list (level * string))%type.

Definition file_reader_tool (fs : FileSystem) (file_path : string) : Logged (outcome pydict) :=
  match
    (if negb (path_exists fs file_path)
     then Return [("error", PStr ("File not found: " ++ file_path))]
     else
       obind (read_text fs file_path) (fun content =>
       Return
         [("file_path", PStr file_path);
          ("content", PStr content);
          ("size", PInt (len_str content));
          ("lines", PInt (Tools.len (split Tools.newline content)))]))
  with
  | Return d => (Return d, [])
  | Raise e =>
      (Return [("error", PStr (exn_str e))],
       [(ERROR, "File reader tool error: " ++ exn_str e)%string])
  end.

(** [json.loads] is the standard library's parser; [JSONDecodeError] is the
    class it raises on text that is not JSON. *)
Definition json_validator_tool (json_loads : string -> outcome pyval) (json_string : string)
    : Logged (outcome pydict) :=
  match json_loads json_string with
  | Return parsed =>
      (Return
         [("valid", PBool true);
          ("parsed_data", parsed);
          ("type", PStr (type_name parsed));
          ("message", PStr "Valid JSON")],
       [])
  | Raise e =>
      if String.eqb (exn_class e) "JSONDecodeError"
      then
        (Return
           [("valid", PBool false);
            ("error", PStr (exn_str e));
            ("message", PStr "Invalid JSON")],
         [])
      else
        (Return [("error", PStr (exn_str e))],
         [(ERROR, "JSON validator tool error: " ++ exn_str e)%string])
  end.

End HostTools.

(** ** [src/agents/specialized_agents.py]: the quick access functions *)

Module Quick.
Import Py Config Agent Specialized.

(** [None] stands for the argument left out. *)
Definition or_default (model : option string) (default : string) : string :=
  match model with
  | Some m => m
  | None => default
  end.

Definition math_agent (lib : Strands) (cfg : OllamaConfig) (model : option string)
    : Ctor OllamaStrandAgent :=
  MathAgent lib cfg (Some (or_default model "llama3.2")).

Definition research_agent (lib : Strands) (cfg : OllamaConfig) (model : option string)
    : Ctor OllamaStrandAgent :=
  ResearchAgent lib cfg (Some (or_default model "llama3.2")).

Definition code_agent (lib : Strands) (cfg : OllamaConfig) (model : option string)
    : Ctor OllamaStrandAgent :=
  CodeAgent lib cfg (Some (or_default model "codellama")).

Definition analysis_agent (lib : Strands) (cfg : OllamaConfig) (model : option string)
    : Ctor OllamaStrandAgent :=
  AnalysisAgent lib cfg (Some (or_default model "llama3.2")).

Definition creative_agent (lib : Strands) (cfg : OllamaConfig) (model : option string)
    : Ctor OllamaStrandAgent :=
  CreativeAgent lib cfg (Some (or_default model "llama3.2")).

End Quick.

(** ** Further notions properties are stated with *)

Module Notions.
Import Py Tools Config Agent Specialized.
Local Open Scope py_scope.

(** *** Word statistics *)

(** The form under which [get_most_common_words] counts a word. *)
Definition clean (word : string) : string := strip_chars punctuation (lower word).

(** How many of [words] are counted under [w]. *)
Definition occurrences (w : string) (words : list string) : Z :=
  Tools.len (filter (fun word => String.eqb (clean word) w) words).

(** The table the loop of [get_most_common_words] builds. *)
Definition word_table (words : list string) : list (string * Z) :=
  fold_left count_word words [].

Definition word_entry (wc : string * Z) : pyval :=
  PDict [("word", PStr (fst wc)); ("count", PInt (snd wc))].

(** How often the character [c] occurs in [s]. *)
Fixpoint count_char (c : ascii) (s : string) : nat :=
  match s with
  | EmptyString => 0
  | String c' s' => (if Ascii.eqb c c' then 1 else 0) + count_char c s'
  end.

(** *** The agent object *)

(** The parts of an agent that describe the same thing agree: [config] is
    the configuration of [model], and [strand_agent] was built from [name]
    and [tools]. *)
Definition coherent (cfg : OllamaConfig) (a : OllamaStrandAgent) : Prop :=
  config a = get_model_config cfg (Some (model a)) /\
  dict_get (config a) "model" = Some (PStr (model a)) /\
  sa_name (strand_agent a) = name a /\
  sa_tools (strand_agent a) = tools a.

(** [for tool in tools: agent.add_tool(tool)] *)
Fixpoint add_all (lib : Strands) (new_tools : list Tool) : M unit :=
  match new_tools with
  | [] => ret tt
  | tool :: rest => add_tool lib tool ;; add_all lib rest
  end.

(** The [strands] constructor returns on each rebuild a run of [add_tool]
    over [new_tools] asks for: the tool list grown by one more of them each
    time. *)
Definition rebuilds_accepted (lib : Strands) (agent_name : string) (old_tools : list Tool)
    (new_tools : list Tool) : Prop :=
  forall n,
    n < List.length new_tools ->
    constructor_fault lib agent_name (old_tools ++ firstn (S n) new_tools) [] = None.

(** *** Streams *)

(** What a stream gives its consumer: the content of each chunk up to the
    first fault, and the text of that fault, whether it is a chunk without
    content or the iterator raising. *)
Fixpoint fragments_until_fault (chunks : list pyval) (fin : option exn) : list pyval :=
  match chunks with
  | chunk :: rest =>
      match Spec.response_content chunk with
      | Return fragment => fragment :: fragments_until_fault rest fin
      | Raise e => [Spec.error_text e]
      end
  | [] =>
      match fin with
      | None => []
      | Some e => [Spec.error_text e]
      end
  end.

(** The same from the call on: a refused call, a library fault or a reply
    that cannot be iterated gives the text of that fault alone. *)
Definition stream_trace (srv : Ollama) (a : OllamaStrandAgent) (message : string)
    (kwargs : pydict) : list pyval :=
  match repeated_keyword ["model"; "messages"; "stream"] kwargs with
  | Some k => [Spec.error_text (multiple_values "ollama._client.Client.chat()" k)]
  | None =>
      match obind (ollama_chat srv (Spec.stream_request a message kwargs)) py_iter with
      | Return (chunks, fin) => fragments_until_fault chunks fin
      | Raise e => [Spec.error_text e]
      end
  end.

(** The record [logger.error] gets when an operation fails. *)
Definition error_records (context : string) (o : outcome pyval) : list (level * string) :=
  match o with
  | Return _ => []
  | Raise e => [(ERROR, context ++ exn_str e)%string]
  end.

End Notions.

(** ** Properties of the tool functions *)

Import Py Tools Spec.

Lemma truediv_nonzero (x y : float) :
  PrimFloat.is_zero y = false -> truediv x y = Return (x / y)%float.
Proof. intros H. unfold truediv. rewrite H. reflexivity. Qed.

(** [convert_temperature] returns on every float and every pair of names. *)
Lemma convert_temperature_returns (value : float) (from_unit to_unit : string) :
  exists result, convert_temperature value from_unit to_unit = Return result.
Proof.
  unfold convert_temperature.
  rewrite !truediv_nonzero by reflexivity.
  destruct (String.eqb (lower from_unit) "fahrenheit");
    [| destruct (String.eqb (lower from_unit) "kelvin")];
    cbn [obind];
    (destruct (String.eqb (lower to_unit) "fahrenheit");
     [| destruct (String.eqb (lower to_unit) "kelvin")]);
    rewrite ?truediv_nonzero by reflexivity; cbn [obind]; eexists; reflexivity.
Qed.

Lemma conversion_result_shape value from_unit to_unit unit_type result :
  is_conversion_result (conversion_result value from_unit to_unit unit_type result).
Proof. split; reflexivity. Qed.

(** C2 at the input on which the code departs from it: ["rankine"] is no
    temperature scale, yet converting 5 of it to kelvin gives a mapping with
    [converted_value] 278.15 and no [error], where a unit unknown for its
    type is to give a mapping with [error] and no [converted_value]. *)
Lemma unit_converter_unknown_temperature_unit :
  known_unit "temperature" "rankine" = false /\
  exists d,
    unit_converter_tool 5 "rankine" "kelvin" "temperature" = Return d /\
    dict_get d "converted_value" = Some (PFloat 278.15) /\
    dict_has d "error" = false.
Proof.
  split; [reflexivity |].
  eexists. split; [vm_compute; reflexivity |]. split; reflexivity.
Qed.

(** X19: 0 celsius is 32.0 fahrenheit, 100 centimeter is 1.0 meter, and for
    every unit type other than ["temperature"] a unit name that is unknown
    for the type gives a mapping with an [error] field and no
    [converted_value] field. *)
Theorem unit_converter_values_and_unknown_units :
  (exists d,
     unit_converter_tool 0 "celsius" "fahrenheit" "temperature" = Return d /\
     dict_get d "converted_value" = Some (PFloat 32)) /\
  (exists d,
     unit_converter_tool 100 "centimeter" "meter" "length" = Return d /\
     dict_get d "converted_value" = Some (PFloat 1)) /\
  (forall value from_unit to_unit unit_type,
     unit_type <> "temperature" ->
     known_unit unit_type from_unit = false \/ known_unit unit_type to_unit = false ->
     exists d,
       unit_converter_tool value from_unit to_unit unit_type = Return d /\
       is_error_result d).
Proof.
  split; [| split].
  - eexists. split; [vm_compute; reflexivity | reflexivity].
  - eexists. split; [vm_compute; reflexivity | reflexivity].
  - intros value from_unit to_unit unit_type Htype Hunknown.
    assert (E : String.eqb unit_type "temperature" = false)
      by (apply String.eqb_neq; exact Htype).
    unfold known_unit in Hunknown. rewrite E in Hunknown.
    unfold unit_converter_tool, getitem. rewrite E.
    unfold dict_has at 1.
    destruct (dict_get conversions unit_type) as [unit_map |]; cbn [negb].
    + cbn [obind].
      assert (B : negb (dict_has unit_map from_unit) || negb (dict_has unit_map to_unit) = true).
      { destruct Hunknown as [H | H]; rewrite H; cbn [negb orb];
          [reflexivity | apply orb_true_r]. }
      rewrite B. cbn [try_except]. eexists. split; [reflexivity |].
      split; reflexivity.
    + cbn [try_except]. eexists. split; [reflexivity |]. split; reflexivity.
Qed.

Lemma unit_converter_values_and_unknown_units_witness :
  exists d,
    unit_converter_tool 2.5 "furlong" "meter" "length" = Return d /\
    is_error_result d.
Proof.
  refine (proj2 (proj2 unit_converter_values_and_unknown_units)
            2.5%float "furlong" "meter" "length" _ _).
  - discriminate.
  - left. reflexivity.
Defined.

(** C9: under unit type ["temperature"] a name whose lowercase form is
    neither ["fahrenheit"] nor ["kelvin"] is read as Celsius. A value in
    such a unit is left as it is towards another such unit, is turned into
    [value * 9 / 5 + 32] towards fahrenheit and into [value + 273.15] towards
    kelvin; a value in fahrenheit or kelvin is turned into
    [(value - 32) * 5 / 9] or [value - 273.15] towards such a unit; the call
    gives what it gives on the name ["celsius"]. Every such call (indeed
    every call) returns a mapping with a [converted_value], the result
    rounded to six decimals, and no [error] field. *)
Theorem temperature_names_default_to_celsius :
  forall value from_unit to_unit,
    convert_temperature value from_unit to_unit
      = convert_temperature value (as_celsius from_unit) (as_celsius to_unit) /\
    (default_scale from_unit -> default_scale to_unit ->
     convert_temperature value from_unit to_unit = Return value) /\
    (default_scale from_unit -> lower to_unit = "fahrenheit" ->
     convert_temperature value from_unit to_unit = Return (value * 9 / 5 + 32)%float) /\
    (default_scale from_unit -> lower to_unit = "kelvin" ->
     convert_temperature value from_unit to_unit = Return (value + 273.15)%float) /\
    (lower from_unit = "fahrenheit" -> default_scale to_unit ->
     convert_temperature value from_unit to_unit = Return ((value - 32) * 5 / 9)%float) /\
    (lower from_unit = "kelvin" -> default_scale to_unit ->
     convert_temperature value from_unit to_unit = Return (value - 273.15)%float) /\
    exists result,
      convert_temperature value from_unit to_unit = Return result /\
      unit_converter_tool value from_unit to_unit "temperature"
        = Return (conversion_result value from_unit to_unit "temperature" result) /\
      dict_get (conversion_result value from_unit to_unit "temperature" result)
               "converted_value" = Some (PFloat (round result 6)) /\
      is_conversion_result (conversion_result value from_unit to_unit "temperature" result).
Proof.
  intros value from_unit to_unit.
  assert (Hdefault : forall unit,
            default_scale unit ->
            String.eqb (lower unit) "fahrenheit" = false /\
            String.eqb (lower unit) "kelvin" = false).
  { intros unit [Hf Hk]. split; apply String.eqb_neq; assumption. }
  split; [| split; [| split; [| split; [| split; [| split]]]]].
  - unfold convert_temperature, as_celsius.
    destruct (String.eqb (lower from_unit) "fahrenheit") eqn:Ff;
      [| destruct (String.eqb (lower from_unit) "kelvin") eqn:Fk];
      cbn [orb]; rewrite ?Ff, ?Fk;
      (destruct (String.eqb (lower to_unit) "fahrenheit") eqn:Tf;
       [| destruct (String.eqb (lower to_unit) "kelvin") eqn:Tk]);
      cbn [orb]; rewrite ?Tf, ?Tk; reflexivity.
  - intros Hfrom Hto.
    destruct (Hdefault _ Hfrom) as [Ff Fk]. destruct (Hdefault _ Hto) as [Tf Tk].
    unfold convert_temperature. rewrite Ff, Fk. cbn [obind]. rewrite Tf, Tk. reflexivity.
  - intros Hfrom Hto. destruct (Hdefault _ Hfrom) as [Ff Fk].
    unfold convert_temperature. rewrite Ff, Fk, Hto. cbn [obind String.eqb Ascii.eqb Bool.eqb].
    rewrite truediv_nonzero by reflexivity. reflexivity.
  - intros Hfrom Hto. destruct (Hdefault _ Hfrom) as [Ff Fk].
    unfold convert_temperature. rewrite Ff, Fk, Hto. reflexivity.
  - intros Hfrom Hto. destruct (Hdefault _ Hto) as [Tf Tk].
    unfold convert_temperature. rewrite Hfrom. cbn [String.eqb Ascii.eqb Bool.eqb].
    rewrite truediv_nonzero by reflexivity. cbn [obind]. rewrite Tf, Tk. reflexivity.
  - intros Hfrom Hto. destruct (Hdefault _ Hto) as [Tf Tk].
    unfold convert_temperature. rewrite Hfrom. cbn [String.eqb Ascii.eqb Bool.eqb obind].
    rewrite Tf, Tk. reflexivity.
  - destruct (convert_temperature_returns value from_unit to_unit) as [result Hr].
    exists result. split; [exact Hr |]. split; [| split].
    + unfold unit_converter_tool. cbn [String.eqb Ascii.eqb Bool.eqb]. rewrite Hr. reflexivity.
    + reflexivity.
    + apply conversion_result_shape.
Qed.

Lemma temperature_names_default_to_celsius_witness :
  convert_temperature 100 "rankine" "Fahrenheit" = Return 212%float /\
  convert_temperature 300 "Kelvin" "degrees" = Return 26.850000000000023%float.
Proof.
  split.
  - refine (proj1 (proj2 (proj2 (temperature_names_default_to_celsius 100 "rankine"
                                   "Fahrenheit"))) _ eq_refl).
    split; discriminate.
  - refine (proj1 (proj2 (proj2 (proj2 (proj2 (proj2
              (temperature_names_default_to_celsius 300 "Kelvin" "degrees")))))) eq_refl _).
    split; discriminate.
Defined.

(** [sorted(..., reverse=True)] as embedded: counts never increase along the
    result, and entries with the same count keep the order they had. *)
Lemma insert_desc_sorted x l :
  StronglySorted (fun a b => (snd b <= snd a)%Z) l ->
  StronglySorted (fun a b => (snd b <= snd a)%Z) (insert_desc x l).
Proof.
  induction 1 as [| y l Hl IH Hy]; cbn [insert_desc].
  - constructor; constructor.
  - destruct (Z.ltb_spec (snd x) (snd y)) as [Hlt | Hge].
    + constructor; [exact IH |].
      assert (Hin : forall z, In z (insert_desc x l) -> z = x \/ In z l).
      { clear. induction l as [| a l IHl]; cbn [insert_desc]; intros z Hz.
        - destruct Hz as [<- | []]. left; reflexivity.
        - destruct (snd x <? snd a)%Z.
          + destruct Hz as [<- | Hz]; [right; left; reflexivity |].
            destruct (IHl z Hz) as [-> | Hz']; [left; reflexivity | right; right; exact Hz'].
          + destruct Hz as [<- | Hz]; [left; reflexivity | right; exact Hz]. }
      apply Forall_forall. intros z Hz.
      destruct (Hin z Hz) as [-> | Hz']; [lia |].
      rewrite Forall_forall in Hy. exact (Hy z Hz').
    + constructor; [constructor; assumption |].
      constructor; [exact Hge |].
      rewrite Forall_forall in Hy |- *. intros z Hz. specialize (Hy z Hz). lia.
Qed.

Lemma sorted_by_count_desc_sorted items :
  StronglySorted (fun a b => (snd b <= snd a)%Z) (sorted_by_count_desc items).
Proof.
  unfold sorted_by_count_desc. induction items as [| x items IH]; cbn [fold_right].
  - constructor.
  - apply insert_desc_sorted. exact IH.
Qed.

Lemma insert_desc_stable (c : Z) x l :
  filter (fun y => Z.eqb (snd y) c) (insert_desc x l)
    = filter (fun y => Z.eqb (snd y) c) (x :: l).
Proof.
  induction l as [| y l IH]; [reflexivity |].
  cbn [insert_desc]. destruct (Z.ltb_spec (snd x) (snd y)) as [Hlt | Hge]; [| reflexivity].
  cbn [filter] in IH |- *. rewrite IH.
  destruct (Z.eqb_spec (snd x) c) as [Hx | Hx]; [| reflexivity].
  destruct (Z.eqb_spec (snd y) c) as [Hy | Hy]; [lia | reflexivity].
Qed.

Lemma sorted_by_count_desc_stable (c : Z) items :
  filter (fun y => Z.eqb (snd y) c) (sorted_by_count_desc items)
    = filter (fun y => Z.eqb (snd y) c) items.
Proof.
  unfold sorted_by_count_desc. induction items as [| x items IH]; [reflexivity |].
  cbn [fold_right]. rewrite insert_desc_stable. cbn [filter]. rewrite IH. reflexivity.
Qed.

(** C8: the statistics of ["Hello world. Hello again."]. *)
Theorem text_analyzer_hello_world :
  exists d rest,
    text_analyzer_tool "Hello world. Hello again." = Return d /\
    dict_get d "word_count" = Some (PInt 4) /\
    dict_get d "sentence_count" = Some (PInt 2) /\
    dict_get d "most_common_words"
      = Some (PList (PDict [("word", PStr "hello"); ("count", PInt 2)] :: rest)).
Proof.
  eexists. eexists. split; [vm_compute; reflexivity |].
  repeat split; reflexivity.
Qed.

(** ** Properties of the agent *)

Import Config Agent Specialized.
Local Open Scope py_scope.

(** The three methods build the same message sequence. *)
Lemma messages_built (a : OllamaStrandAgent) (message : string) :
  append_system a [] ++ [user_message message] = conversation a message.
Proof.
  unfold append_system, conversation, str_truthy.
  destruct (system_prompt a) as [prompt |]; [| reflexivity].
  destruct (String.eqb prompt ""); reflexivity.
Qed.

Section Chat.

Variable srv : Ollama.

(** What [chat] does, step by step. *)
Lemma chat_run (message : string) (kwargs : pydict) (w : World) :
  chat srv message kwargs w =
  match repeated_keyword ["model"; "messages"] kwargs with
  | Some k =>
      let e := multiple_values "ollama._client.Client.chat()" k in
      (Return (error_text e), add_log w ERROR ("Error in chat: " ++ exn_str e))
  | None =>
      let w1 := add_call w (CallChat (chat_request (self w) message kwargs)) in
      match obind (ollama_chat srv (chat_request (self w) message kwargs)) response_content with
      | Return content => (Return content, w1)
      | Raise e => (Return (error_text e), add_log w1 ERROR ("Error in chat: " ++ exn_str e))
      end
  end.
Proof.
  unfold chat, try_except, bind, get_self, call_chat, chat_request.
  rewrite messages_built.
  destruct (repeated_keyword ["model"; "messages"] kwargs) as [k |]; [reflexivity |].
  unfold bind, record_call, lift, response_content.
  destruct (ollama_chat srv _) as [response | e]; cbn [obind].
  - destruct (subscript response "message") as [msg | e]; cbn [obind].
    + destruct (subscript msg "content") as [content | e]; reflexivity.
    + reflexivity.
  - reflexivity.
Qed.

Lemma async_chat_run (message : string) (kwargs : pydict) (w : World) :
  async_chat srv message kwargs w =
  match repeated_keyword ["model"; "messages"] kwargs with
  | Some k =>
      let e := multiple_values "ollama._client.AsyncClient.chat()" k in
      (Return (error_text e), add_log w ERROR ("Error in async_chat: " ++ exn_str e))
  | None =>
      let w1 := add_call w (CallAsyncChat (chat_request (self w) message kwargs)) in
      match obind (ollama_async_chat srv (chat_request (self w) message kwargs))
                  response_content with
      | Return content => (Return content, w1)
      | Raise e => (Return (error_text e), add_log w1 ERROR ("Error in async_chat: " ++ exn_str e))
      end
  end.
Proof.
  unfold async_chat, try_except, bind, get_self, call_async_chat, chat_request.
  rewrite messages_built.
  destruct (repeated_keyword ["model"; "messages"] kwargs) as [k |]; [reflexivity |].
  unfold bind, record_call, lift, response_content.
  destruct (ollama_async_chat srv _) as [response | e]; cbn [obind].
  - destruct (subscript response "message") as [msg | e]; cbn [obind].
    + destruct (subscript msg "content") as [content | e]; reflexivity.
    + reflexivity.
  - reflexivity.
Qed.

(** What the first [next] of a [stream_chat] generator does up to the loop. *)
Lemma stream_start_run (message : string) (kwargs : pydict) (w : World) :
  stream_start srv message kwargs w =
  match repeated_keyword ["model"; "messages"; "stream"] kwargs with
  | Some k => stream_handler (multiple_values "ollama._client.Client.chat()" k) w
  | None =>
      let w1 := add_call w (CallChat (stream_request (self w) message kwargs)) in
      match obind (ollama_chat srv (stream_request (self w) message kwargs)) py_iter with
      | Return (items, fin) => stream_loop items fin w1
      | Raise e => stream_handler e w1
      end
  end.
Proof.
  unfold stream_start, bind, get_self, call_chat_stream, stream_request.
  rewrite messages_built.
  destruct (repeated_keyword ["model"; "messages"; "stream"] kwargs) as [k |]; [reflexivity |].
  unfold bind, record_call, lift.
  destruct (ollama_chat srv _) as [response | e]; cbn [obind]; [| reflexivity].
  destruct (py_iter response) as [[items fin] | e]; reflexivity.
Qed.

End Chat.

(** *** The messages a call sends (C1) *)

Lemma stream_handler_calls e w :
  calls (snd (stream_handler e w)) = calls w.
Proof. reflexivity. Qed.

Lemma stream_loop_calls rest fin w :
  calls (snd (stream_loop rest fin w)) = calls w.
Proof.
  unfold stream_loop. destruct rest as [| chunk rest].
  - destruct fin; reflexivity.
  - destruct (obind _ _); reflexivity.
Qed.

(** C1, as the specification words it, fails on an empty system prompt: the
    prompt is not [None], yet the one request [chat] makes carries the user
    message alone. *)
Lemma empty_system_prompt_sends_no_system_message :
  system_prompt (self (Demo.world (Some ""))) = Some "" /\
  calls (snd (chat Demo.server "hi" [] (Demo.world (Some ""))))
    = [CallChat {| req_model := "deepseek-r1:7b";
                   req_messages := [user_message "hi"];
                   req_options := [] |}] /\
  conversation_as_claimed (self (Demo.world (Some ""))) "hi"
    = [system_message ""; user_message "hi"] /\
  [user_message "hi"] <> conversation_as_claimed (self (Demo.world (Some ""))) "hi".
Proof.
  split; [reflexivity |]. split; [reflexivity |]. split; [reflexivity |].
  discriminate.
Qed.

(** C1, amended: each of [chat], [async_chat] and [stream_chat] hands the
    client library at most one request (exactly one unless the keyword
    arguments repeat one the call site writes out), and its message sequence
    is [system message, user message] when the agent's system prompt is
    neither [None] nor empty, and [user message] alone when it is [None] or
    empty. *)
Theorem messages_sent_per_call :
  forall srv message kwargs w,
    (calls (snd (chat srv message kwargs w))
       = calls w ++ requests_made ["model"; "messages"] kwargs
                      (CallChat (chat_request (self w) message kwargs))) /\
    (calls (snd (async_chat srv message kwargs w))
       = calls w ++ requests_made ["model"; "messages"] kwargs
                      (CallAsyncChat (chat_request (self w) message kwargs))) /\
    (calls (snd (next srv (stream_chat message kwargs) w))
       = calls w ++ requests_made ["model"; "messages"; "stream"] kwargs
                      (CallChat (stream_request (self w) message kwargs))) /\
    (forall rest fin, calls (snd (next srv (InLoop rest fin) w)) = calls w) /\
    calls (snd (next srv InHandler w)) = calls w /\
    calls (snd (next srv Finished w)) = calls w /\
    (forall prompt,
       system_prompt (self w) = Some prompt -> prompt <> "" ->
       conversation (self w) message = [system_message prompt; user_message message]) /\
    (system_prompt (self w) = None \/ system_prompt (self w) = Some "" ->
     conversation (self w) message = [user_message message]).
Proof.
  intros srv message kwargs w. repeat split.
  - rewrite chat_run. unfold requests_made.
    destruct (repeated_keyword _ kwargs); cbn [snd calls add_log].
    + symmetry; apply app_nil_r.
    + destruct (obind _ _); reflexivity.
  - rewrite async_chat_run. unfold requests_made.
    destruct (repeated_keyword _ kwargs); cbn [snd calls add_log].
    + symmetry; apply app_nil_r.
    + destruct (obind _ _); reflexivity.
  - unfold stream_chat. cbn [next]. rewrite stream_start_run. unfold requests_made.
    destruct (repeated_keyword _ kwargs).
    + rewrite stream_handler_calls. symmetry; apply app_nil_r.
    + cbv zeta. destruct (obind _ _) as [[items fin] | e].
      * rewrite stream_loop_calls. reflexivity.
      * rewrite stream_handler_calls. reflexivity.
  - intros rest fin. apply stream_loop_calls.
  - intros prompt Hp Hne. unfold conversation. rewrite Hp.
    apply String.eqb_neq in Hne. rewrite Hne. reflexivity.
  - intros [H | H]; unfold conversation; rewrite H; reflexivity.
Qed.

Lemma messages_sent_per_call_witness :
  calls (snd (chat Demo.server "hi" [] (Demo.world (Some "Be brief."))))
    = [CallChat {| req_model := "deepseek-r1:7b";
                   req_messages := [system_message "Be brief."; user_message "hi"];
                   req_options := [] |}].
Proof.
  pose proof (messages_sent_per_call Demo.server "hi" [] (Demo.world (Some "Be brief.")))
    as (Hchat & _ & _ & _ & _ & _ & Hsystem & _).
  rewrite Hchat. unfold chat_request.
  rewrite (Hsystem "Be brief." eq_refl); [reflexivity | discriminate].
Defined.

(** *** Failures become text (C3) *)

(** C3: [chat] and [async_chat] always return. What they return is the
    content field of the response when the request and the reading of its
    response succeed, and otherwise the text ["Error: "] followed by the
    description of the fault. *)
Theorem chat_returns_content_or_error_text :
  forall srv message kwargs w,
    fst (chat srv message kwargs w)
      = Return (content_or_error_text
                  (exchange (ollama_chat srv) "ollama._client.Client.chat()"
                            (self w) message kwargs)) /\
    fst (async_chat srv message kwargs w)
      = Return (content_or_error_text
                  (exchange (ollama_async_chat srv) "ollama._client.AsyncClient.chat()"
                            (self w) message kwargs)).
Proof.
  intros srv message kwargs w. split.
  - rewrite chat_run. unfold exchange.
    destruct (repeated_keyword _ kwargs); [reflexivity |].
    cbv zeta. destruct (obind _ _); reflexivity.
  - rewrite async_chat_run. unfold exchange.
    destruct (repeated_keyword _ kwargs); [reflexivity |].
    cbv zeta. destruct (obind _ _); reflexivity.
Qed.

Example chat_on_a_dropped_connection :
  fst (chat Demo.broken_server "hi" [] (Demo.world None))
    = Return (PStr "Error: connection lost").
Proof. reflexivity. Qed.

Example chat_refused_keyword :
  fst (chat Demo.server "hi" [("model", PStr "phi3")] (Demo.world None))
    = Return (PStr "Error: ollama._client.Client.chat() got multiple values for keyword argument 'model'").
Proof. reflexivity. Qed.

Example async_chat_on_a_response_without_content :
  fst (async_chat
         {| ollama_chat := fun _ => Return PNone;
            ollama_async_chat := fun _ => Return (PDict [("message", PDict [])]);
            ollama_show := fun _ => Return PNone;
            ollama_list := Return PNone |}
         "hi" [] (Demo.world None))
    = Return (PStr "Error: 'content'").
Proof. reflexivity. Qed.

(** *** The model inventory (C4) *)






(** *** Streaming (C5, C6) *)

Section Streaming.

Variable srv : Ollama.

(** A generator that has left its body stays stopped. *)
Lemma finished_stays_finished w :
  next srv Finished w = (StopIteration, Finished, w).
Proof. reflexivity. Qed.

(** Once the stream is open, consuming the generator from its creation is
    consuming it from the top of the loop. *)
Lemma consume_from_start message kwargs w reply chunks fin fuel :
  repeated_keyword ["model"; "messages"; "stream"] kwargs = None ->
  ollama_chat srv (stream_request (self w) message kwargs) = Return reply ->
  py_iter reply = Return (chunks, fin) ->
  consume srv fuel (stream_chat message kwargs) w
    = consume srv fuel (InLoop chunks fin)
        (add_call w (CallChat (stream_request (self w) message kwargs))).
Proof.
  intros Hkw Hreply Hiter. destruct fuel as [| fuel]; [reflexivity |].
  unfold stream_chat. cbn [consume next].
  rewrite stream_start_run, Hkw. cbv zeta. rewrite Hreply. cbn [obind].
  rewrite Hiter. reflexivity.
Qed.

(** A stream that ends normally: the fragments, then the stop. *)
Lemma consume_whole_stream chunks fragments :
  carries chunks fragments ->
  forall w fuel,
    List.length fragments < fuel ->
    consume srv fuel (InLoop chunks None) w = Some (fragments, Finished, w).
Proof.
  induction 1 as [| chunk fragment chunks fragments Hc _ IH]; intros w fuel Hfuel.
  - destruct fuel as [| fuel]; [inversion Hfuel | reflexivity].
  - destruct fuel as [| fuel]; [inversion Hfuel |].
    cbn [List.length] in Hfuel. apply PeanoNat.lt_S_n in Hfuel.
    cbn [consume next stream_loop].
    unfold response_content in Hc. rewrite Hc.
    rewrite (IH w fuel Hfuel). reflexivity.
Qed.

(** A stream that breaks: the fragments before the break, one error
    fragment, then the stop. *)
Lemma consume_broken_stream chunks fragments e :
  carries chunks fragments ->
  forall w fuel,
    S (List.length fragments) < fuel ->
    consume srv fuel (InLoop chunks (Some e)) w
      = Some (fragments ++ [error_text e], Finished,
              add_log w ERROR ("Error in stream_chat: " ++ exn_str e)).
Proof.
  induction 1 as [| chunk fragment chunks fragments Hc _ IH]; intros w fuel Hfuel.
  - destruct fuel as [| [| fuel]]; [inversion Hfuel | | reflexivity].
    apply PeanoNat.lt_S_n in Hfuel. inversion Hfuel.
  - destruct fuel as [| fuel]; [inversion Hfuel |].
    cbn [List.length] in Hfuel. apply PeanoNat.lt_S_n in Hfuel.
    cbn [consume next stream_loop].
    unfold response_content in Hc. rewrite Hc.
    rewrite (IH w fuel Hfuel). reflexivity.
Qed.

Lemma repeated_keyword_fewer kwargs :
  repeated_keyword ["model"; "messages"; "stream"] kwargs = None ->
  repeated_keyword ["model"; "messages"] kwargs = None.
Proof.
  unfold repeated_keyword. induction kwargs as [| [k v] kwargs IH]; [reflexivity |].
  cbn [find existsb fst orb].
  destruct (String.eqb k "model"); [discriminate |].
  destruct (String.eqb k "messages"); [discriminate |].
  destruct (String.eqb k "stream"); [discriminate |].
  cbn [orb]. exact IH.
Qed.

(** C5: when the server streams finitely many fragments and then stops,
    [stream_chat] yields exactly those fragments in their order of arrival
    and then stops; and if the server answers the same input, not streamed,
    with their concatenation, [chat] returns the concatenation of what
    [stream_chat] yields. *)
Theorem stream_chat_yields_fragments_in_order :
  forall message kwargs w reply chunks fragments,
    repeated_keyword ["model"; "messages"; "stream"] kwargs = None ->
    ollama_chat srv (stream_request (self w) message kwargs) = Return reply ->
    py_iter reply = Return (chunks, None) ->
    carries chunks (map PStr fragments) ->
    (forall fuel,
       List.length fragments < fuel ->
       exists w',
         consume srv fuel (stream_chat message kwargs) w
           = Some (map PStr fragments, Finished, w')) /\
    (forall response,
       ollama_chat srv (chat_request (self w) message kwargs) = Return response ->
       response_content response = Return (PStr (join fragments)) ->
       fst (chat srv message kwargs w) = Return (PStr (join fragments))).
Proof.
  intros message kwargs w reply chunks fragments Hkw Hreply Hiter Hcarry. split.
  - intros fuel Hfuel. eexists.
    rewrite (consume_from_start _ _ _ _ _ _ _ Hkw Hreply Hiter).
    apply (consume_whole_stream _ _ Hcarry).
    rewrite length_map. exact Hfuel.
  - intros response Hresponse Hcontent.
    rewrite chat_run, (repeated_keyword_fewer _ Hkw). cbv zeta.
    rewrite Hresponse. cbn [obind]. rewrite Hcontent. reflexivity.
Qed.

(** C6: when the connection fails after some fragments, [stream_chat] yields
    those fragments, then exactly one error fragment, then stops, and stays
    stopped. *)
Theorem stream_chat_failure_mid_stream :
  forall message kwargs w reply chunks fragments e,
    repeated_keyword ["model"; "messages"; "stream"] kwargs = None ->
    ollama_chat srv (stream_request (self w) message kwargs) = Return reply ->
    py_iter reply = Return (chunks, Some e) ->
    carries chunks fragments ->
    (forall fuel,
       S (List.length fragments) < fuel ->
       exists w',
         consume srv fuel (stream_chat message kwargs) w
           = Some (fragments ++ [error_text e], Finished, w')) /\
    (forall w', next srv InHandler w' = (StopIteration, Finished, w')) /\
    (forall w', next srv Finished w' = (StopIteration, Finished, w')).
Proof.
  intros message kwargs w reply chunks fragments e Hkw Hreply Hiter Hcarry.
  split; [| split; reflexivity].
  intros fuel Hfuel. eexists.
  rewrite (consume_from_start _ _ _ _ _ _ _ Hkw Hreply Hiter).
  apply (consume_broken_stream _ _ _ Hcarry). exact Hfuel.
Qed.

End Streaming.

Lemma stream_chat_yields_fragments_in_order_witness :
  (exists w',
     consume Demo.server 4 (stream_chat "What is 2 + 2?" []) (Demo.world None)
       = Some ([PStr "The"; PStr " answer"; PStr " is 4"], Finished, w')) /\
  fst (chat Demo.server "What is 2 + 2?" [] (Demo.world None))
    = Return (PStr "The answer is 4").
Proof.
  destruct (stream_chat_yields_fragments_in_order Demo.server
              "What is 2 + 2?" [] (Demo.world None)
              (PIter [Demo.reply "The"; Demo.reply " answer"; Demo.reply " is 4"] None)
              [Demo.reply "The"; Demo.reply " answer"; Demo.reply " is 4"]
              ["The"; " answer"; " is 4"]
              eq_refl eq_refl eq_refl)
    as [Hstream Hchat].
  - repeat constructor.
  - split.
    + apply (Hstream 4). repeat constructor.
    + apply (Hchat (Demo.reply "The answer is 4")); reflexivity.
Defined.

Lemma stream_chat_failure_mid_stream_witness :
  exists w',
    consume Demo.broken_server 3 (stream_chat "What is 2 + 2?" []) (Demo.world None)
      = Some ([PStr "The"; PStr "Error: connection lost"], Finished, w').
Proof.
  destruct (stream_chat_failure_mid_stream Demo.broken_server
              "What is 2 + 2?" [] (Demo.world None)
              (PIter [Demo.reply "The"] (Some Demo.ConnectionError))
              [Demo.reply "The"] [PStr "The"] Demo.ConnectionError
              eq_refl eq_refl eq_refl)
    as [Hstream _].
  - repeat constructor.
  - apply (Hstream 3). repeat constructor.
Defined.

(** *** The agent factory (C7) *)

Lemma agents_keys (key : string) :
  dict_has agents key = true <-> In key preset_names.
Proof.
  unfold dict_has, agents, preset_names. cbn [dict_get In].
  split.
  - repeat match goal with
           | |- context [String.eqb ?k key] =>
               destruct (String.eqb_spec k key); [subst; tauto |]
           end.
    discriminate.
  - intros H.
    repeat (destruct H as [<- | H]; [reflexivity |]).
    destruct H.
Qed.

Lemma create_known_preset lib cfg agent_type asked lg key agent_class agent_name default
    preset_tools prompt :
  lower agent_type = key ->
  dict_get agents key = Some agent_class ->
  default <> "" ->
  constructor_fault lib agent_name preset_tools [] = None ->
  (forall m, agent_class lib cfg m
             = init lib cfg agent_name (Some (match m with Some x => x | None => default end))
                    (Some preset_tools) (Some prompt) []) ->
  exists a lg',
    create_agent lib cfg agent_type asked lg = (Return a, lg') /\
    is_preset a agent_name default preset_tools prompt asked.
Proof.
  intros Hkey Hget Hdefault Hbuilt Hclass.
  unfold create_agent, Tools.getitem, dict_has. rewrite Hkey, Hget. cbn [negb].
  apply String.eqb_neq in Hdefault.
  assert (Hinit : forall m, String.eqb m "" = false ->
            exists a lg',
              init lib cfg agent_name (Some m) (Some preset_tools) (Some prompt) [] lg
                = (Return a, lg') /\
              name a = agent_name /\ model a = m /\ tools a = preset_tools /\
              system_prompt a = Some prompt /\
              strand_agent a = {| sa_name := agent_name; sa_tools := preset_tools;
                                  sa_kwargs := [] |}).
  { intros m Hm. unfold init, new_StrandAgent, str_truthy. rewrite Hm.
    cbn [negb].
    assert (Ht : match preset_tools with t :: ts => t :: ts | [] => [] end = preset_tools)
      by (destruct preset_tools; reflexivity).
    rewrite Ht, Hbuilt. eexists. eexists. split; [reflexivity |]. repeat split. }
  unfold is_preset.
  destruct asked as [m |]; cbn [opt_str_truthy]; unfold str_truthy.
  - destruct (String.eqb m "") eqn:Hm; cbn [negb]; rewrite Hclass.
    + destruct (Hinit default Hdefault) as (a & lg' & E & Ha). eauto.
    + destruct (Hinit m Hm) as (a & lg' & E & Ha). eauto.
  - rewrite Hclass. destruct (Hinit default Hdefault) as (a & lg' & E & Ha). eauto.
Qed.

(** C7: [create_agent] raises [ValueError] for every agent type whose
    lowercase form is not one of the five preset names, and for each of the
    five it returns the agent of that preset. *)
Theorem create_agent_closed_enumeration :
  forall lib cfg agent_type asked lg,
    (~ In (lower agent_type) preset_names ->
     exists e,
       create_agent lib cfg agent_type asked lg = (Raise e, lg) /\
       exn_class e = "ValueError") /\
    (lower agent_type = "math" ->
     exists a lg',
       create_agent lib cfg agent_type asked lg = (Return a, lg') /\
       is_preset a "MathAgent" "llama3.2" [calculator] MathAgent_system_prompt asked) /\
    (lower agent_type = "research" ->
     exists a lg',
       create_agent lib cfg agent_type asked lg = (Return a, lg') /\
       is_preset a "ResearchAgent" "llama3.2" [] ResearchAgent_system_prompt asked) /\
    (lower agent_type = "code" ->
     exists a lg',
       create_agent lib cfg agent_type asked lg = (Return a, lg') /\
       is_preset a "CodeAgent" "codellama" [] CodeAgent_system_prompt asked) /\
    (lower agent_type = "analysis" ->
     exists a lg',
       create_agent lib cfg agent_type asked lg = (Return a, lg') /\
       is_preset a "AnalysisAgent" "llama3.2" [calculator] AnalysisAgent_system_prompt asked) /\
    (lower agent_type = "creative" ->
     exists a lg',
       create_agent lib cfg agent_type asked lg = (Return a, lg') /\
       is_preset a "CreativeAgent" "llama3.2" [] CreativeAgent_system_prompt asked).
Proof.
  intros lib cfg agent_type asked lg. split; [| repeat split].
  - intros Hnot. unfold create_agent.
    destruct (dict_has agents (lower agent_type)) eqn:Hhas.
    + apply agents_keys in Hhas. contradiction.
    + cbn [negb]. eexists. split; reflexivity.
  - intros H.
    apply (create_known_preset lib cfg agent_type asked lg "math" MathAgent);
      [exact H | reflexivity | discriminate | apply (presets_are_built lib) | reflexivity].
  - intros H.
    apply (create_known_preset lib cfg agent_type asked lg "research" ResearchAgent);
      [exact H | reflexivity | discriminate | apply (presets_are_built lib) | reflexivity].
  - intros H.
    apply (create_known_preset lib cfg agent_type asked lg "code" CodeAgent);
      [exact H | reflexivity | discriminate | apply (presets_are_built lib) | reflexivity].
  - intros H.
    apply (create_known_preset lib cfg agent_type asked lg "analysis" AnalysisAgent);
      [exact H | reflexivity | discriminate | apply (presets_are_built lib) | reflexivity].
  - intros H.
    apply (create_known_preset lib cfg agent_type asked lg "creative" CreativeAgent);
      [exact H | reflexivity | discriminate | apply (presets_are_built lib) | reflexivity].
Qed.

Lemma create_agent_closed_enumeration_witness :
  (exists e,
     create_agent Demo.strands Demo.cfg "poetry" None [] = (Raise e, []) /\
     exn_class e = "ValueError") /\
  (exists a lg',
     create_agent Demo.strands Demo.cfg "Math" (Some "mistral") [] = (Return a, lg') /\
     is_preset a "MathAgent" "llama3.2" [calculator] MathAgent_system_prompt
               (Some "mistral")).
Proof.
  split.
  - apply (proj1 (create_agent_closed_enumeration Demo.strands Demo.cfg "poetry" None [])).
    cbn. intuition discriminate.
  - apply (proj1 (proj2 (create_agent_closed_enumeration Demo.strands Demo.cfg "Math"
                           (Some "mistral") []))).
    reflexivity.
Defined.

(** *** What a call changes (C10) *)

Lemma stream_loop_self rest fin w :
  self (snd (stream_loop rest fin w)) = self w.
Proof.
  unfold stream_loop. destruct rest as [| chunk rest].
  - destruct fin; reflexivity.
  - destruct (obind _ _); reflexivity.
Qed.

Lemma next_self srv g w :
  self (snd (next srv g w)) = self w.
Proof.
  destruct g as [message kwargs | rest fin | |]; cbn [next]; try reflexivity.
  - rewrite stream_start_run.
    destruct (repeated_keyword _ kwargs); [reflexivity |].
    cbv zeta. destruct (obind _ _) as [[items fin] | e]; [| reflexivity].
    rewrite stream_loop_self. reflexivity.
  - apply stream_loop_self.
Qed.

(** Consuming a generator, however far, leaves the agent as it was. *)
Lemma consume_self srv fuel :
  forall g w fragments g' w',
    consume srv fuel g w = Some (fragments, g', w') -> self w' = self w.
Proof.
  induction fuel as [| fuel IH]; intros g w fragments g' w' H; [discriminate |].
  cbn [consume] in H.
  pose proof (next_self srv g w) as Hnext.
  destruct (next srv g w) as [[r g1] w1]. cbn [snd] in Hnext.
  destruct r as [v |].
  - destruct (consume srv fuel g1 w1) as [[[vs g2] w2] |] eqn:E; [| discriminate].
    injection H as _ _ <-. rewrite (IH _ _ _ _ _ E). exact Hnext.
  - injection H as _ _ <-. exact Hnext.
Qed.

(** What [add_tool] does: the append comes first and stays, whether or not
    the constructor then returns. *)
Lemma add_tool_run (lib : Strands) (tool : Tool) (w : World) :
  add_tool lib tool w
  = match constructor_fault lib (name (self w)) (tools (self w) ++ [tool]) [] with
    | None =>
        (Return tt,
         {| self := {| name := name (self w);
                       model := model (self w);
                       tools := tools (self w) ++ [tool];
                       system_prompt := system_prompt (self w);
                       config := config (self w);
                       strand_agent := {| sa_name := name (self w);
                                          sa_tools := tools (self w) ++ [tool];
                                          sa_kwargs := [] |} |};
            log := log w ++ [(INFO, "Added tool to agent '" ++ name (self w) ++ "'")%string];
            calls := calls w |})
    | Some e =>
        (Raise e,
         {| self := {| name := name (self w);
                       model := model (self w);
                       tools := tools (self w) ++ [tool];
                       system_prompt := system_prompt (self w);
                       config := config (self w);
                       strand_agent := strand_agent (self w) |};
            log := log w;
            calls := calls w |})
    end.
Proof.
  unfold add_tool, bind, get_self, set_self, lift, new_StrandAgent, logger.
  cbn [self log calls name model tools system_prompt config strand_agent].
  destruct (constructor_fault lib (name (self w)) (tools (self w) ++ [tool]) []); reflexivity.
Qed.

(** C10: [chat], [async_chat], every step of a [stream_chat] generator and
    every run of one leave the agent object as it was, whatever the server
    does, and so do [get_model_info], [list_available_models] and [__str__].
    [add_tool] appends the tool to [tools] and leaves [name], [model],
    [system_prompt] and [config] as they were; when the library's constructor
    returns, [strand_agent] is rebuilt from the name and the new tool list,
    and when it raises, the exception reaches the caller with the tool
    appended and [strand_agent] as it was. *)
Theorem only_add_tool_changes_the_agent :
  forall srv lib message kwargs tool w,
    self (snd (chat srv message kwargs w)) = self w /\
    self (snd (async_chat srv message kwargs w)) = self w /\
    (forall g, self (snd (next srv g w)) = self w) /\
    (forall fuel g fragments g' w',
       consume srv fuel g w = Some (fragments, g', w') -> self w' = self w) /\
    self (snd (get_model_info srv w)) = self w /\
    self (snd (list_available_models srv w)) = self w /\
    self (snd (to_str w)) = self w /\
    fst (add_tool lib tool w)
      = match constructor_fault lib (name (self w)) (tools (self w) ++ [tool]) [] with
        | None => Return tt
        | Some e => Raise e
        end /\
    self (snd (add_tool lib tool w))
      = {| name := name (self w);
           model := model (self w);
           tools := tools (self w) ++ [tool];
           system_prompt := system_prompt (self w);
           config := config (self w);
           strand_agent :=
             match constructor_fault lib (name (self w)) (tools (self w) ++ [tool]) [] with
             | None => {| sa_name := name (self w);
                          sa_tools := tools (self w) ++ [tool];
                          sa_kwargs := [] |}
             | Some _ => strand_agent (self w)
             end |}.
Proof.
  intros srv lib message kwargs tool w.
  split; [| split; [| split; [| split; [| split; [| split; [| split; [| split]]]]]]].
  - rewrite chat_run. destruct (repeated_keyword _ kwargs); [reflexivity |].
    cbv zeta. destruct (obind _ _); reflexivity.
  - rewrite async_chat_run. destruct (repeated_keyword _ kwargs); [reflexivity |].
    cbv zeta. destruct (obind _ _); reflexivity.
  - intros g. apply next_self.
  - intros fuel g fragments g' w'. apply consume_self.
  - unfold get_model_info, try_except, bind, get_self, record_call, lift, logger, ret.
    destruct (ollama_show srv _); reflexivity.
  - unfold list_available_models, try_except, bind, record_call, lift, logger, ret.
    destruct (ollama_list srv) as [inventory |]; [| reflexivity].
    destruct (subscript inventory "models") as [entries |]; [| reflexivity].
    destruct (py_iter entries) as [it |]; [| reflexivity].
    destruct (comprehension _ (fst it) (snd it)); reflexivity.
  - reflexivity.
  - rewrite add_tool_run. destruct (constructor_fault _ _ _ _); reflexivity.
  - rewrite add_tool_run. destruct (constructor_fault _ _ _ _); reflexivity.
Qed.

Lemma only_add_tool_changes_the_agent_witness :
  self (snd (add_tool Demo.strands calculator (Demo.world None)))
    = {| name := "TestAgent";
         model := "deepseek-r1:7b";
         tools := [calculator];
         system_prompt := None;
         config := get_model_config Demo.cfg (Some "deepseek-r1:7b");
         strand_agent := {| sa_name := "TestAgent"; sa_tools := [calculator];
                            sa_kwargs := [] |} |} /\
  fst (add_tool Demo.strands "weather" (Demo.world None))
    = Raise (ValueError "Failed to load tool") /\
  strand_agent (self (snd (add_tool Demo.strands "weather" (Demo.world None))))
    = {| sa_name := "TestAgent"; sa_tools := []; sa_kwargs := [] |} /\
  (exists fragments g' w',
     consume Demo.broken_server 3 (stream_chat "hi" []) (Demo.world None)
       = Some (fragments, g', w') /\
     self w' = Demo.agent None).
Proof.
  pose proof (only_add_tool_changes_the_agent Demo.broken_server Demo.strands "hi" []
                calculator (Demo.world None))
    as (_ & _ & _ & Hconsume & _ & _ & _ & _ & Hadd).
  pose proof (only_add_tool_changes_the_agent Demo.broken_server Demo.strands "hi" []
                "weather" (Demo.world None))
    as (_ & _ & _ & _ & _ & _ & _ & Hraise & Hstale).
  split; [| split; [| split]].
  - rewrite Hadd. reflexivity.
  - rewrite Hraise. reflexivity.
  - rewrite Hstale. reflexivity.
  - eexists. eexists. eexists. split; [reflexivity |].
    exact (Hconsume 3 (stream_chat "hi" []) _ _ _ eq_refl).
Defined.

(** ** Further properties of the tool functions *)

Import HostTools Notions.

(** *** The counting table of [get_most_common_words] *)

Lemma dict_get_set {V : Type} (d : list (string * V)) (k : string) (v : V) (k' : string) :
  dict_get (dict_set d k v) k' = if String.eqb k k' then Some v else dict_get d k'.
Proof.
  induction d as [| [k0 v0] d IH]; cbn [dict_set dict_get]; [reflexivity |].
  destruct (String.eqb_spec k0 k) as [-> | Hk0]; cbn [dict_get].
  - destruct (String.eqb k k'); reflexivity.
  - rewrite IH. destruct (String.eqb_spec k0 k') as [-> | Hk'].
    + destruct (String.eqb_spec k k') as [-> | _]; [contradiction | reflexivity].
    + reflexivity.
Qed.

Lemma dict_set_keys {V : Type} (d : list (string * V)) (k : string) (v : V) :
  map fst (dict_set d k v) = map fst d \/
  (~ In k (map fst d) /\ map fst (dict_set d k v) = map fst d ++ [k]).
Proof.
  induction d as [| [k0 v0] d IH]; cbn [dict_set map fst].
  - right. split; [intros [] | reflexivity].
  - destruct (String.eqb_spec k0 k) as [-> | Hk0]; cbn [map fst]; [left; reflexivity |].
    destruct IH as [-> | [Hnot ->]]; [left; reflexivity |].
    right. split; [| reflexivity].
    intros [E | Hin]; [exact (Hk0 E) | exact (Hnot Hin)].
Qed.

Lemma dict_set_NoDup {V : Type} (d : list (string * V)) (k : string) (v : V) :
  NoDup (map fst d) -> NoDup (map fst (dict_set d k v)).
Proof.
  intros Hd. destruct (dict_set_keys d k v) as [-> | [Hnot ->]]; [exact Hd |].
  apply NoDup_app; [exact Hd | repeat constructor; intros [] |].
  intros x Hx [<- | []]. exact (Hnot Hx).
Qed.

Lemma dict_get_In {V : Type} (d : list (string * V)) (k : string) (v : V) :
  NoDup (map fst d) -> In (k, v) d -> dict_get d k = Some v.
Proof.
  induction d as [| [k0 v0] d IH]; intros Hd Hin; [destruct Hin |].
  cbn [map fst] in Hd. inversion Hd as [| ? ? Hnot Hd']; subst.
  cbn [dict_get]. destruct Hin as [E | Hin].
  - injection E as -> ->. rewrite String.eqb_refl. reflexivity.
  - destruct (String.eqb_spec k0 k) as [-> | _]; [| exact (IH Hd' Hin)].
    exfalso. apply Hnot. apply (in_map fst) in Hin. exact Hin.
Qed.

Lemma occurrences_nonneg w words : (0 <= occurrences w words)%Z.
Proof. unfold occurrences, Tools.len. lia. Qed.

Lemma occurrences_cons w word words :
  occurrences w (word :: words)
    = ((if String.eqb (clean word) w then 1 else 0) + occurrences w words)%Z.
Proof.
  unfold occurrences, Tools.len. cbn [filter].
  destruct (String.eqb (clean word) w); cbn [List.length]; lia.
Qed.

(** Whether the loop counts a cleaned word at all. *)
Lemma count_word_table words :
  forall d w,
    dict_get (fold_left count_word words d) w
      = if str_truthy w && (2 <? len_str w)%Z && (0 <? occurrences w words)%Z
        then Some (dict_get_default d w 0 + occurrences w words)%Z
        else dict_get d w.
Proof.
  induction words as [| word words IH]; intros d w.
  - cbn [fold_left]. unfold occurrences, Tools.len. cbn. rewrite andb_false_r. reflexivity.
  - cbn [fold_left]. rewrite IH, occurrences_cons.
    pose proof (occurrences_nonneg w words) as Hn.
    unfold count_word. fold (clean word).
    destruct (String.eqb_spec (clean word) w) as [E | E].
    + rewrite E.
      destruct (str_truthy w && (2 <? len_str w)%Z) eqn:K; cbn [andb].
      * unfold dict_get_default at 1. rewrite !dict_get_set, String.eqb_refl.
        assert (H1 : (0 <? 1 + occurrences w words)%Z = true) by (apply Z.ltb_lt; lia).
        rewrite H1.
        destruct (Z.ltb_spec 0 (occurrences w words)); f_equal; lia.
      * reflexivity.
    + rewrite Z.add_0_l.
      destruct (str_truthy (clean word) && (2 <? len_str (clean word))%Z); [| reflexivity].
      unfold dict_get_default at 1. rewrite !dict_get_set.
      apply String.eqb_neq in E. rewrite E. reflexivity.
Qed.

Lemma word_table_NoDup words : NoDup (map fst (word_table words)).
Proof.
  unfold word_table.
  assert (H : forall d, NoDup (map fst d) -> NoDup (map fst (fold_left count_word words d))).
  { induction words as [| word words IH]; intros d Hd; [exact Hd |].
    cbn [fold_left]. apply IH. unfold count_word.
    destruct (_ && _); [apply dict_set_NoDup |]; exact Hd. }
  apply H. constructor.
Qed.

Lemma insert_desc_perm x l : Permutation (x :: l) (insert_desc x l).
Proof.
  induction l as [| y l IH]; cbn [insert_desc]; [reflexivity |].
  destruct (snd x <? snd y)%Z; [| reflexivity].
  rewrite perm_swap. apply perm_skip. exact IH.
Qed.

Lemma sorted_by_count_desc_perm items : Permutation items (sorted_by_count_desc items).
Proof.
  unfold sorted_by_count_desc. induction items as [| x items IH]; cbn [fold_right].
  - reflexivity.
  - rewrite <- insert_desc_perm. apply perm_skip. exact IH.
Qed.

Lemma slice_to_prefix {A : Type} (l : list A) (n : Z) :
  exists rest, l = slice_to l n ++ rest.
Proof.
  unfold slice_to. destruct (0 <=? n)%Z; eexists; symmetry; apply firstn_skipn.
Qed.

Lemma In_slice_to {A : Type} (l : list A) (n : Z) (x : A) :
  In x (slice_to l n) -> In x l.
Proof.
  intros H. destruct (slice_to_prefix l n) as [rest E]. rewrite E.
  apply in_or_app. left. exact H.
Qed.

Lemma word_entry_injective a b : word_entry a = word_entry b -> a = b.
Proof.
  destruct a, b. unfold word_entry. cbn [fst snd]. intros H. injection H as -> ->. reflexivity.
Qed.

(** X1: every entry [get_most_common_words] reports is counted right. Its
    count is the number of input words whose cleaned form (lowercased, with
    the punctuation stripped from both ends) is the reported word; that
    number is at least one, and the word has more than two characters. *)
Theorem most_common_words_counts :
  forall words top_n w c,
    In (word_entry (w, c)) (get_most_common_words words top_n) ->
    c = occurrences w words /\
    (1 <= c)%Z /\
    (2 < len_str w)%Z /\
    exists word, In word words /\ clean word = w.
Proof.
  intros words top_n w c Hin.
  unfold get_most_common_words in Hin. fold (word_table words) in Hin.
  change (fun wc : string * Z => PDict [("word", PStr (fst wc)); ("count", PInt (snd wc))])
    with word_entry in Hin.
  apply in_map_iff in Hin. destruct Hin as [[w' c'] [E Hin]].
  apply word_entry_injective in E. injection E as -> ->.
  apply In_slice_to in Hin.
  apply (Permutation_in _ (Permutation_sym (sorted_by_count_desc_perm _))) in Hin.
  apply (dict_get_In _ _ _ (word_table_NoDup words)) in Hin.
  unfold word_table in Hin. rewrite count_word_table in Hin.
  destruct (str_truthy w && (2 <? len_str w)%Z && (0 <? occurrences w words)%Z) eqn:K;
    [| discriminate].
  apply andb_prop in K. destruct K as [K Hpos].
  apply andb_prop in K. destruct K as [_ Hlen].
  apply Z.ltb_lt in Hpos, Hlen.
  cbn [dict_get_default dict_get] in Hin. injection Hin as <-.
  split; [lia |]. split; [lia |]. split; [exact Hlen |].
  unfold occurrences, Tools.len in Hpos.
  destruct (filter (fun word => String.eqb (clean word) w) words) as [| word rest] eqn:F;
    [cbn in Hpos; lia |].
  assert (Hw : In word (filter (fun word => String.eqb (clean word) w) words))
    by (rewrite F; left; reflexivity).
  apply filter_In in Hw. destruct Hw as [Hw Hc].
  exists word. split; [exact Hw | apply String.eqb_eq; exact Hc].
Qed.

Lemma most_common_words_counts_witness :
  2%Z = occurrences "the" (split_ws "The cat saw (the) dog") /\
  (2 < len_str "the")%Z.
Proof.
  destruct (most_common_words_counts (split_ws "The cat saw (the) dog") 5 "the" 2)
    as (Hc & _ & Hl & _).
  - left. reflexivity.
  - split; [exact Hc | exact Hl].
Defined.

Lemma StronglySorted_prefix {A : Type} (R : A -> A -> Prop) (l1 l2 : list A) :
  StronglySorted R (l1 ++ l2) -> StronglySorted R l1.
Proof.
  induction l1 as [| x l1 IH]; intros H; [constructor |].
  cbn [app] in H. inversion H as [| ? ? Hs Hall]; subst.
  constructor; [exact (IH Hs) |].
  apply Forall_app in Hall. exact (proj1 Hall).
Qed.

Lemma NoDup_prefix {A : Type} (l1 l2 : list A) : NoDup (l1 ++ l2) -> NoDup l1.
Proof.
  induction l1 as [| x l1 IH]; intros H; [constructor |].
  cbn [app] in H. inversion H as [| ? ? Hnot Hd]; subst.
  constructor; [| exact (IH Hd)].
  intros Hin. apply Hnot. apply in_or_app. left. exact Hin.
Qed.

Lemma slice_to_all {A : Type} (l : list A) (n : Z) :
  (Tools.len l <= n)%Z -> slice_to l n = l.
Proof.
  unfold slice_to, Tools.len. intros H.
  destruct (Z.leb_spec 0 n); [| lia].
  apply firstn_all2. lia.
Qed.

Lemma slice_to_length {A : Type} (l : list A) (n : Z) :
  (0 <= n)%Z -> (Tools.len (slice_to l n) <= n)%Z.
Proof.
  unfold slice_to, Tools.len. intros H.
  destruct (Z.leb_spec 0 n); [| lia].
  pose proof (firstn_le_length (Z.to_nat n) l). lia.
Qed.

(** X2: the list [get_most_common_words] returns names no word twice, its
    counts never increase from one entry to the next, it has at most [top_n]
    entries for a non-negative [top_n], and when [top_n] is at least the
    number of distinct counted words every counted word is in it. *)
Theorem most_common_words_ranking :
  forall words top_n,
    exists ranking,
      get_most_common_words words top_n = map word_entry ranking /\
      NoDup (map fst ranking) /\
      StronglySorted (fun a b => (snd b <= snd a)%Z) ranking /\
      ((0 <= top_n)%Z -> (Tools.len ranking <= top_n)%Z) /\
      ((Tools.len (word_table words) <= top_n)%Z ->
       forall word,
         In word words ->
         (2 < len_str (clean word))%Z ->
         In (clean word, occurrences (clean word) words) ranking).
Proof.
  intros words top_n.
  exists (slice_to (sorted_by_count_desc (word_table words)) top_n).
  destruct (slice_to_prefix (sorted_by_count_desc (word_table words)) top_n) as [rest E].
  split; [reflexivity |]. split; [| split; [| split]].
  - apply (NoDup_prefix _ (map fst rest)). rewrite <- map_app, <- E.
    apply (Permutation_NoDup (Permutation_map fst (sorted_by_count_desc_perm _))).
    apply word_table_NoDup.
  - apply (StronglySorted_prefix _ _ rest). rewrite <- E.
    apply sorted_by_count_desc_sorted.
  - apply slice_to_length.
  - intros Hall word Hword Hlen.
    rewrite slice_to_all.
    2:{ unfold Tools.len in *.
        rewrite <- (Permutation_length (sorted_by_count_desc_perm (word_table words))).
        exact Hall. }
    apply (Permutation_in _ (sorted_by_count_desc_perm _)).
    pose proof (count_word_table words [] (clean word)) as Hget.
    fold (word_table words) in Hget.
    assert (Hpos : (0 < occurrences (clean word) words)%Z).
    { unfold occurrences, Tools.len.
      assert (Hin : In word (filter (fun x => String.eqb (clean x) (clean word)) words))
        by (apply filter_In; split; [exact Hword | apply String.eqb_refl]).
      destruct (filter _ words); [destruct Hin | cbn [List.length]; lia]. }
    assert (Htruthy : str_truthy (clean word) = true).
    { unfold str_truthy. destruct (clean word); [cbn in Hlen; lia | reflexivity]. }
    rewrite Htruthy in Hget.
    apply Z.ltb_lt in Hlen, Hpos. rewrite Hlen, Hpos in Hget.
    cbn [andb dict_get_default dict_get] in Hget. rewrite Z.add_0_l in Hget.
    clear - Hget. induction (word_table words) as [| [k v] d IH]; [discriminate |].
    cbn [dict_get] in Hget. destruct (String.eqb_spec k (clean word)) as [-> | _].
    + injection Hget as ->. left. reflexivity.
    + right. exact (IH Hget).
Qed.

Lemma most_common_words_ranking_witness :
  exists ranking,
    get_most_common_words (split_ws "The cat saw (the) dog") 2 = map word_entry ranking /\
    (Tools.len ranking <= 2)%Z.
Proof.
  destruct (most_common_words_ranking (split_ws "The cat saw (the) dog") 2)
    as (ranking & E & _ & _ & Hlen & _).
  exists ranking. split; [exact E | apply Hlen; lia].
Defined.

(** *** [split] and the statistics of [text_analyzer_tool] *)

Lemma prefix_empty s : String.prefix EmptyString s = true.
Proof. destruct s; reflexivity. Qed.

(** Splitting at a one-character separator gives one piece more than the
    separator occurs. *)
Lemma split_single_length (c : ascii) (s : string) :
  List.length (split (String c EmptyString) s) = S (count_char c s).
Proof.
  unfold split.
  assert (H : List.length (snd (pieces_from (String c EmptyString) 0 s)) = count_char c s).
  { induction s as [| c' s IH]; [reflexivity |].
    cbn [pieces_from String.prefix String.length Nat.sub count_char].
    destruct (ascii_dec c c') as [-> | Hne].
    - rewrite prefix_empty, Ascii.eqb_refl.
      destruct (pieces_from (String c' EmptyString) 0 s) as [w ws].
      cbn [snd List.length] in *. rewrite IH. reflexivity.
    - apply Ascii.eqb_neq in Hne. rewrite Hne.
      destruct (pieces_from (String c EmptyString) 0 s) as [w ws].
      cbn [snd] in *. exact IH. }
  destruct (pieces_from (String c EmptyString) 0 s) as [w ws].
  cbn [snd List.length] in *. rewrite H. reflexivity.
Qed.

Lemma split_ws_length (s : string) :
  List.length (split_ws s) <= String.length s.
Proof.
  unfold split_ws.
  assert (H : List.length (snd (words_from s)) <= String.length s /\
              List.length (cons_nonempty (fst (words_from s)) (snd (words_from s)))
                <= String.length s).
  { induction s as [| c s [IH1 IH2]]; [split; auto |].
    cbn [words_from String.length].
    destruct (words_from s) as [w ws]. cbn [fst snd] in *.
    destruct (isspace c); cbn [fst snd cons_nonempty String.eqb List.length]; lia. }
  destruct (words_from s) as [w ws]. cbn [fst snd] in H. exact (proj2 H).
Qed.

(** X3: [text_analyzer_tool] never reports an error: the divisor of the
    average is at least one. For every text it returns the six statistics,
    with a word count between zero and the character count, a sentence count
    of at most the number of periods plus one, and at most five common
    words. *)
Theorem text_analyzer_always_returns_statistics :
  forall text,
    exists average,
      int_truediv (Tools.len (split_ws text))
                  (Z.max (Tools.len (nonblank (split "." text))) 1) = Return average /\
      text_analyzer_tool text
        = Return
            [("character_count", PInt (len_str text));
             ("word_count", PInt (Tools.len (split_ws text)));
             ("sentence_count", PInt (Tools.len (nonblank (split "." text))));
             ("paragraph_count",
              PInt (Tools.len (nonblank (split (newline ++ newline) text))));
             ("average_words_per_sentence", PFloat (round average 2));
             ("most_common_words", PList (get_most_common_words (split_ws text) 5))] /\
      (0 <= Tools.len (split_ws text) <= len_str text)%Z /\
      (Tools.len (nonblank (split "." text)) <= Z.of_nat (count_char "."%char text) + 1)%Z /\
      (Tools.len (get_most_common_words (split_ws text) 5) <= 5)%Z.
Proof.
  intros text.
  assert (Hdiv : exists average,
            int_truediv (Tools.len (split_ws text))
                        (Z.max (Tools.len (nonblank (split "." text))) 1) = Return average).
  { pose proof (Zle_0_nat (List.length (split_ws text))) as Ha.
    assert (Hb : (0 < Z.max (Tools.len (nonblank (split "." text))) 1)%Z) by lia.
    unfold Tools.len at 1.
    destruct (Z.max _ 1) as [| d | d]; [lia | | lia].
    destruct (Z.of_nat (List.length (split_ws text))) as [| n | n]; [| | lia];
      eexists; reflexivity. }
  destruct Hdiv as [average Hdiv]. exists average.
  split; [exact Hdiv |]. split; [| split; [| split]].
  - unfold text_analyzer_tool. rewrite Hdiv. reflexivity.
  - unfold Tools.len, len_str. pose proof (split_ws_length text). lia.
  - unfold Tools.len, nonblank.
    pose proof (filter_length_le (fun s => str_truthy (strip s)) (split "." text)) as Hf.
    rewrite (split_single_length "."%char text) in Hf. lia.
  - unfold get_most_common_words. unfold Tools.len at 1. rewrite length_map.
    apply (slice_to_length _ 5). lia.
Qed.

(** *** Unit tables *)

(** No factor of the tables is zero, so the division by the target unit's
    factor cannot fail. *)
Lemma conversion_factor_nonzero unit_type unit_map unit factor :
  dict_get conversions unit_type = Some unit_map ->
  dict_get unit_map unit = Some factor ->
  PrimFloat.is_zero factor = false.
Proof.
  unfold conversions. cbn [dict_get].
  repeat match goal with
         | |- context [String.eqb ?k unit_type] => destruct (String.eqb k unit_type)
         end;
    intros H; try discriminate; injection H as <-;
    cbn [dict_get];
    repeat match goal with
           | |- context [String.eqb ?k unit] => destruct (String.eqb k unit)
           end;
    intros H; try discriminate; injection H as <-; reflexivity.
Qed.

(** X4: for a unit type other than ["temperature"], a call whose two unit
    names are both keys of the type's table never reports an error: it
    returns the conversion mapping, whose [converted_value] is the value
    times the source factor, divided by the target factor, rounded to six
    decimals. *)
Theorem unit_converter_known_units_convert :
  forall value from_unit to_unit unit_type,
    unit_type <> "temperature" ->
    known_unit unit_type from_unit = true ->
    known_unit unit_type to_unit = true ->
    exists unit_map from_factor to_factor,
      dict_get conversions unit_type = Some unit_map /\
      dict_get unit_map from_unit = Some from_factor /\
      dict_get unit_map to_unit = Some to_factor /\
      unit_converter_tool value from_unit to_unit unit_type
        = Return (conversion_result value from_unit to_unit unit_type
                    (value * from_factor / to_factor)%float) /\
      is_conversion_result
        (conversion_result value from_unit to_unit unit_type
           (value * from_factor / to_factor)%float).
Proof.
  intros value from_unit to_unit unit_type Htype Hfrom Hto.
  assert (E : String.eqb unit_type "temperature" = false)
    by (apply String.eqb_neq; exact Htype).
  unfold known_unit in Hfrom, Hto. rewrite E in Hfrom, Hto.
  destruct (dict_get conversions unit_type) as [unit_map |] eqn:Hmap; [| discriminate].
  unfold dict_has in Hfrom, Hto.
  destruct (dict_get unit_map from_unit) as [from_factor |] eqn:Hf; [| discriminate].
  destruct (dict_get unit_map to_unit) as [to_factor |] eqn:Ht; [| discriminate].
  exists unit_map, from_factor, to_factor.
  split; [reflexivity |]. split; [exact Hf |]. split; [exact Ht |].
  split; [| apply conversion_result_shape].
  unfold unit_converter_tool, getitem, dict_has. rewrite E, Hmap. cbn [negb obind].
  rewrite Hf, Ht. cbn [negb orb obind].
  rewrite (truediv_nonzero _ _ (conversion_factor_nonzero _ _ _ _ Hmap Ht)).
  reflexivity.
Qed.

Lemma unit_converter_known_units_convert_witness :
  exists d,
    unit_converter_tool 3 "mile" "foot" "length" = Return d /\
    is_conversion_result d.
Proof.
  destruct (unit_converter_known_units_convert 3 "mile" "foot" "length")
    as (unit_map & f & t & _ & _ & _ & E & Hshape).
  - discriminate.
  - reflexivity.
  - reflexivity.
  - eexists. split; [exact E | exact Hshape].
Defined.

Lemma lower_char_idempotent c : lower_char (lower_char c) = lower_char c.
Proof. destruct c as [[] [] [] [] [] [] [] []]; reflexivity. Qed.

Lemma lower_idempotent s : lower (lower s) = lower s.
Proof.
  induction s as [| c s IH]; [reflexivity |].
  cbn [lower]. rewrite lower_char_idempotent, IH. reflexivity.
Qed.

(** The keys of the length and weight tables are in lowercase. *)
Lemma table_keys_lowercase unit_type unit :
  unit_type <> "temperature" ->
  known_unit unit_type unit = true ->
  lower unit = unit.
Proof.
  intros Htype. apply String.eqb_neq in Htype.
  unfold known_unit, dict_has, conversions. rewrite Htype. cbn [dict_get].
  repeat match goal with
         | |- context [String.eqb ?k unit_type] => destruct (String.eqb k unit_type)
         end;
    try discriminate; cbn [dict_get];
    repeat match goal with
           | |- context [String.eqb ?k unit] =>
               destruct (String.eqb_spec k unit); [subst; reflexivity |]
           end;
    discriminate.
Qed.

(** X5: temperature scales are matched whatever the letter case (a call
    gives the same conversion as the call on the lowercased names), while a
    length or weight name is known only in the lowercase spelling of the
    table, so a name that differs from its lowercase form is rejected. *)
Theorem unit_names_and_letter_case :
  forall value from_unit to_unit,
    convert_temperature value from_unit to_unit
      = convert_temperature value (lower from_unit) (lower to_unit) /\
    (forall unit_type,
       unit_type <> "temperature" ->
       lower from_unit <> from_unit \/ lower to_unit <> to_unit ->
       exists d,
         unit_converter_tool value from_unit to_unit unit_type = Return d /\
         is_error_result d).
Proof.
  intros value from_unit to_unit. split.
  - unfold convert_temperature. rewrite !lower_idempotent. reflexivity.
  - intros unit_type Htype Hcase.
    assert (Hunknown : known_unit unit_type from_unit = false \/
                       known_unit unit_type to_unit = false).
    { destruct Hcase as [H | H]; [left | right];
        match goal with
        | |- known_unit ?t ?u = false =>
            destruct (known_unit t u) eqn:K; [| reflexivity];
            exfalso; apply H; exact (table_keys_lowercase t u Htype K)
        end. }
    assert (E : String.eqb unit_type "temperature" = false)
      by (apply String.eqb_neq; exact Htype).
    unfold known_unit in Hunknown. rewrite E in Hunknown.
    unfold unit_converter_tool, getitem. rewrite E.
    unfold dict_has at 1.
    destruct (dict_get conversions unit_type) as [unit_map |]; cbn [negb].
    + cbn [obind].
      assert (B : negb (dict_has unit_map from_unit) || negb (dict_has unit_map to_unit) = true).
      { destruct Hunknown as [H | H]; rewrite H; cbn [negb orb];
          [reflexivity | apply orb_true_r]. }
      rewrite B. eexists. split; [reflexivity |]. split; reflexivity.
    + eexists. split; [reflexivity |]. split; reflexivity.
Qed.

Lemma unit_names_and_letter_case_witness :
  exists d,
    unit_converter_tool 1 "Meter" "foot" "length" = Return d /\
    is_error_result d.
Proof.
  apply (proj2 (unit_names_and_letter_case 1 "Meter" "foot") "length").
  - discriminate.
  - left. discriminate.
Defined.

(** *** The tools that reach outside the program *)

(** X6: [file_reader_tool] never raises. A path that does not exist gives
    the [File not found] mapping and no log record; a file that is read
    gives its content, its length as [size], and as [lines] the number of
    newline characters plus one (an empty file has one line); a read that
    fails gives a mapping with the fault's text under [error] and one log
    record. *)
Theorem file_reader_results :
  forall fs file_path,
    (exists d, fst (file_reader_tool fs file_path) = Return d) /\
    (path_exists fs file_path = false ->
     file_reader_tool fs file_path
       = (Return [("error", PStr ("File not found: " ++ file_path))], [])) /\
    (forall content,
       path_exists fs file_path = true ->
       read_text fs file_path = Return content ->
       exists d,
         file_reader_tool fs file_path = (Return d, []) /\
         dict_get d "file_path" = Some (PStr file_path) /\
         dict_get d "content" = Some (PStr content) /\
         dict_get d "size" = Some (PInt (len_str content)) /\
         dict_get d "lines" = Some (PInt (Z.of_nat (count_char "010"%char content) + 1)) /\
         dict_has d "error" = false) /\
    (forall e,
       path_exists fs file_path = true ->
       read_text fs file_path = Raise e ->
       file_reader_tool fs file_path
         = (Return [("error", PStr (exn_str e))],
            [(ERROR, "File reader tool error: " ++ exn_str e)%string])).
Proof.
  intros fs file_path. unfold file_reader_tool.
  split; [| split; [| split]].
  - destruct (path_exists fs file_path); cbn [negb]; [| eexists; reflexivity].
    destruct (read_text fs file_path); eexists; reflexivity.
  - intros ->. reflexivity.
  - intros content -> ->. cbn [negb obind]. eexists. split; [reflexivity |].
    repeat split.
    cbn [dict_get String.eqb Ascii.eqb Bool.eqb]. unfold Tools.len, newline.
    rewrite split_single_length. do 2 f_equal. lia.
  - intros e -> ->. reflexivity.
Qed.

Lemma file_reader_results_witness :
  exists d,
    file_reader_tool
      {| path_exists := fun p => String.eqb p "notes.txt";
         read_text := fun p => Return (String.concat Tools.newline ["one"; "two"; ""]) |}
      "notes.txt" = (Return d, []) /\
    dict_get d "lines" = Some (PInt 3).
Proof.
  destruct (file_reader_results
              {| path_exists := fun p => String.eqb p "notes.txt";
                 read_text := fun p => Return (String.concat Tools.newline ["one"; "two"; ""]) |}
              "notes.txt")
    as (_ & _ & Hread & _).
  destruct (Hread _ eq_refl eq_refl) as (d & E & _ & _ & _ & Hlines & _).
  exists d. split; [exact E | exact Hlines].
Defined.

(** X7: [json_validator_tool] never raises, and the shape of its mapping
    tells the three outcomes apart: [valid] is true exactly when the parser
    returned, and then [parsed_data] is the parser's value and [type] the
    name of its Python type; on a [JSONDecodeError] [valid] is false and
    [error] holds the parser's message; on any other fault the mapping holds
    [error] alone, with neither [valid] nor [message], and the fault is
    logged. *)
Theorem json_validator_results :
  forall json_loads json_string,
    exists d records,
      json_validator_tool json_loads json_string = (Return d, records) /\
      (dict_get d "valid" = Some (PBool true) <->
       exists parsed, json_loads json_string = Return parsed) /\
      (forall parsed,
         json_loads json_string = Return parsed ->
         dict_get d "parsed_data" = Some parsed /\
         dict_get d "type" = Some (PStr (type_name parsed)) /\
         dict_has d "error" = false /\
         records = []) /\
      (forall e,
         json_loads json_string = Raise e ->
         dict_get d "error" = Some (PStr (exn_str e)) /\
         dict_has d "parsed_data" = false /\
         (exn_class e = "JSONDecodeError" ->
          dict_get d "valid" = Some (PBool false) /\
          dict_get d "message" = Some (PStr "Invalid JSON") /\
          records = []) /\
         (exn_class e <> "JSONDecodeError" ->
          dict_has d "valid" = false /\
          dict_has d "message" = false /\
          records = [(ERROR, "JSON validator tool error: " ++ exn_str e)%string])).
Proof.
  intros json_loads json_string. unfold json_validator_tool.
  destruct (json_loads json_string) as [parsed | e].
  - eexists. eexists. split; [reflexivity |]. split; [| split].
    + split; [intros _; eexists; reflexivity | reflexivity].
    + intros parsed' H. injection H as <-. repeat split.
    + intros e H. discriminate.
  - destruct (String.eqb_spec (exn_class e) "JSONDecodeError") as [Hc | Hc];
      eexists; eexists; (split; [reflexivity |]); (split; [| split]).
    + split; [discriminate | intros [parsed H]; discriminate].
    + intros parsed H. discriminate.
    + intros e' H. injection H as <-. split; [reflexivity |]. split; [reflexivity |].
      split; [intros _; repeat split | intros Hne; contradiction].
    + split; [discriminate | intros [parsed H]; discriminate].
    + intros parsed H. discriminate.
    + intros e' H. injection H as <-. split; [reflexivity |]. split; [reflexivity |].
      split; [intros Hc'; contradiction | intros _; repeat split].
Qed.

Lemma json_validator_results_witness :
  exists d records,
    json_validator_tool (fun _ => Raise (mk_exn "RecursionError" "maximum recursion depth exceeded"))
      "[[[[" = (Return d, records) /\
    dict_has d "valid" = false.
Proof.
  destruct (json_validator_results
              (fun _ => Raise (mk_exn "RecursionError" "maximum recursion depth exceeded"))
              "[[[[")
    as (d & records & E & _ & _ & Hfault).
  exists d, records. split; [exact E |].
  destruct (Hfault _ eq_refl) as (_ & _ & _ & Hother).
  apply Hother. discriminate.
Defined.

(** ** Further properties of the agent *)

(** *** Construction *)

(** X8: [__init__] builds the [strands] agent from the name, the tool list
    ([[]] when none is given) and the keyword arguments it was passed. When
    that constructor raises, [__init__] raises the same exception and logs
    nothing. When it returns, [__init__] returns an agent and logs one
    record; the agent's model is the one asked for, or the configured
    default when none or an empty one is asked for; its [config] describes
    that model, and its [strand_agent] is the one just built. *)
Theorem init_builds_a_coherent_agent :
  forall lib cfg name_ model_ tools_ prompt kwargs lg,
    (forall e,
       constructor_fault lib name_ (match tools_ with Some ts => ts | None => [] end) kwargs
         = Some e ->
       init lib cfg name_ model_ tools_ prompt kwargs lg = (Raise e, lg)) /\
    (constructor_fault lib name_ (match tools_ with Some ts => ts | None => [] end) kwargs
       = None ->
     exists a record,
       init lib cfg name_ model_ tools_ prompt kwargs lg
         = (Return a, lg ++ [(INFO, record)]) /\
       name a = name_ /\
       model a = (match model_ with
                  | Some m => if String.eqb m "" then default_model cfg else m
                  | None => default_model cfg
                  end) /\
       tools a = (match tools_ with Some ts => ts | None => [] end) /\
       system_prompt a = prompt /\
       sa_kwargs (strand_agent a) = kwargs /\
       coherent cfg a).
Proof.
  intros lib cfg name_ model_ tools_ prompt kwargs lg. unfold init, new_StrandAgent.
  assert (Ht : match tools_ with Some (t :: ts) => t :: ts | _ => [] end
               = match tools_ with Some ts => ts | None => [] end)
    by (destruct tools_ as [[| t ts] |]; reflexivity).
  rewrite Ht. split.
  - intros e ->. reflexivity.
  - intros ->. eexists. eexists. split; [reflexivity |].
    cbn [name model tools system_prompt strand_agent sa_kwargs config].
    split; [reflexivity |]. split; [| split; [reflexivity |]].
    + destruct model_ as [m |]; [| reflexivity]. unfold str_truthy.
      destruct (String.eqb m ""); reflexivity.
    + split; [reflexivity |]. split; [reflexivity |].
      unfold coherent. cbn [name model tools system_prompt strand_agent sa_name sa_tools
        config].
      split; [reflexivity |]. split; [| split; reflexivity].
      unfold get_model_config, opt_str_truthy, str_truthy.
      cbn [dict_get String.eqb Ascii.eqb Bool.eqb].
      destruct model_ as [m |].
      * destruct (String.eqb m "") eqn:Hm; cbn [negb]; [| rewrite Hm; reflexivity].
        destruct (String.eqb (default_model cfg) ""); reflexivity.
      * destruct (String.eqb (default_model cfg) ""); reflexivity.
Qed.

Lemma init_builds_a_coherent_agent_witness :
  (exists a record,
     init Demo.strands Demo.cfg "TestAgent" (Some "") None None [] []
       = (Return a, [] ++ [(INFO, record)]) /\
     model a = "llama3.2") /\
  init Demo.strands Demo.cfg "TestAgent" None None None [("description", PStr "demo")] []
    = (Raise (TypeError "Agent.__init__() got an unexpected keyword argument 'description'"),
       []).
Proof.
  split.
  - destruct (init_builds_a_coherent_agent Demo.strands Demo.cfg "TestAgent" (Some "")
                None None [] [])
      as [_ Hbuilt].
    destruct (Hbuilt eq_refl) as (a & record & E & _ & Hmodel & _).
    exists a, record. split; [exact E | exact Hmodel].
  - exact (proj1 (init_builds_a_coherent_agent Demo.strands Demo.cfg "TestAgent" None
                    None None [("description", PStr "demo")] [])
             _ eq_refl).
Defined.

(** *** [add_tool] *)

Lemma rebuilds_accepted_tail lib agent_name old_tools tool rest :
  rebuilds_accepted lib agent_name old_tools (tool :: rest) ->
  constructor_fault lib agent_name (old_tools ++ [tool]) [] = None /\
  rebuilds_accepted lib agent_name (old_tools ++ [tool]) rest.
Proof.
  intros H. split.
  - apply (H 0). cbn [List.length]. lia.
  - intros n Hn. rewrite <- app_assoc. apply (H (S n)). cbn [List.length]. lia.
Qed.

Lemma add_all_accepted lib cfg new_tools :
  forall w,
    rebuilds_accepted lib (name (self w)) (tools (self w)) new_tools ->
    exists w',
      add_all lib new_tools w = (Return tt, w') /\
      tools (self w') = tools (self w) ++ new_tools /\
      name (self w') = name (self w) /\
      model (self w') = model (self w) /\
      system_prompt (self w') = system_prompt (self w) /\
      config (self w') = config (self w) /\
      calls w' = calls w /\
      log w' = log w ++ map (fun _ => (INFO, "Added tool to agent '" ++ name (self w) ++ "'")%string)
                            new_tools /\
      (coherent cfg (self w) -> coherent cfg (self w')) /\
      (new_tools <> [] -> sa_kwargs (strand_agent (self w')) = []).
Proof.
  induction new_tools as [| tool rest IH]; intros w Hacc.
  - exists w. cbn [add_all map]. rewrite !app_nil_r.
    split; [reflexivity |]. repeat (split; [reflexivity |]).
    split; [intros H; exact H | intros H; contradiction].
  - apply rebuilds_accepted_tail in Hacc. destruct Hacc as [Hbuilt Hacc].
    cbn [add_all]. unfold bind at 1. rewrite add_tool_run, Hbuilt.
    match goal with
    | |- context [add_all lib rest ?w1] =>
        destruct (IH w1 Hacc)
          as (w' & E & Ht & Hn & Hm & Hp & Hc & Hcalls & Hlog & Hcoh & Hkw)
    end.
    exists w'. rewrite E. cbn [self name model tools system_prompt config strand_agent
                                 log calls] in *.
    split; [reflexivity |].
    split; [rewrite Ht, <- app_assoc; reflexivity |].
    split; [exact Hn |]. split; [exact Hm |]. split; [exact Hp |]. split; [exact Hc |].
    split; [exact Hcalls |].
    split; [rewrite Hlog, <- app_assoc; reflexivity |].
    split.
    + intros (H1 & H2 & H3 & H4). apply Hcoh. unfold coherent.
      cbn [config model strand_agent sa_name sa_tools name tools]. auto.
    + intros _. destruct rest as [| tool' rest'].
      * cbn [add_all ret] in E. injection E as <-. reflexivity.
      * apply Hkw. discriminate.
Qed.

Lemma add_all_refused lib done :
  forall w tool rest e,
    rebuilds_accepted lib (name (self w)) (tools (self w)) done ->
    constructor_fault lib (name (self w)) (tools (self w) ++ done ++ [tool]) [] = Some e ->
    exists w',
      add_all lib (done ++ tool :: rest) w = (Raise e, w') /\
      tools (self w') = tools (self w) ++ done ++ [tool] /\
      log w' = log w ++ map (fun _ => (INFO, "Added tool to agent '" ++ name (self w) ++ "'")%string)
                            done /\
      (sa_tools (strand_agent (self w)) = tools (self w) ->
       sa_tools (strand_agent (self w')) = tools (self w) ++ done).
Proof.
  induction done as [| d done IH]; intros w tool rest e Hacc Hfault.
  - cbn [app add_all] in *. unfold bind. rewrite add_tool_run, Hfault.
    eexists. split; [reflexivity |].
    cbn [self tools strand_agent log map]. rewrite !app_nil_r.
    split; [reflexivity |]. split; [reflexivity |]. intros H; exact H.
  - apply rebuilds_accepted_tail in Hacc. destruct Hacc as [Hbuilt Hacc].
    cbn [app add_all]. unfold bind at 1. rewrite add_tool_run, Hbuilt.
    match goal with
    | |- context [add_all lib (done ++ tool :: rest) ?w1] =>
        destruct (IH w1 tool rest e) as (w' & E & Ht & Hlog & Hstale)
    end.
    + exact Hacc.
    + cbn [self name tools]. rewrite <- app_assoc. exact Hfault.
    + exists w'. rewrite E. cbn [self name tools strand_agent sa_tools log] in *.
      split; [reflexivity |].
      split; [rewrite Ht, <- app_assoc; reflexivity |].
      split; [rewrite Hlog, <- app_assoc; reflexivity |].
      intros _. rewrite Hstale by reflexivity. rewrite <- app_assoc. reflexivity.
Qed.

(** X9: adding tools one after the other appends them to the tool list in
    the order given. While the [strands] constructor returns on each rebuild,
    the run succeeds, leaves [name], [model], [system_prompt] and [config] as
    they were, makes no call into the client library, logs one record per
    tool, keeps [config] and [strand_agent] in step with the agent, and
    rebuilds [strand_agent] without the keyword arguments given at
    construction. At the first rebuild on which the constructor raises the
    run ends with that exception: the refused tool is appended all the same,
    nothing is logged for it, and [strand_agent] is left one tool behind the
    tool list. *)
Theorem add_tools_in_sequence :
  forall lib cfg w,
    (forall new_tools,
       rebuilds_accepted lib (name (self w)) (tools (self w)) new_tools ->
       exists w',
         add_all lib new_tools w = (Return tt, w') /\
         tools (self w') = tools (self w) ++ new_tools /\
         name (self w') = name (self w) /\
         model (self w') = model (self w) /\
         system_prompt (self w') = system_prompt (self w) /\
         config (self w') = config (self w) /\
         calls w' = calls w /\
         log w' = log w ++ map (fun _ => (INFO, "Added tool to agent '" ++ name (self w) ++ "'")%string)
                               new_tools /\
         (coherent cfg (self w) -> coherent cfg (self w')) /\
         (new_tools <> [] -> sa_kwargs (strand_agent (self w')) = [])) /\
    (forall done tool rest e,
       rebuilds_accepted lib (name (self w)) (tools (self w)) done ->
       constructor_fault lib (name (self w)) (tools (self w) ++ done ++ [tool]) [] = Some e ->
       exists w',
         add_all lib (done ++ tool :: rest) w = (Raise e, w') /\
         tools (self w') = tools (self w) ++ done ++ [tool] /\
         log w' = log w ++ map (fun _ => (INFO, "Added tool to agent '" ++ name (self w) ++ "'")%string)
                               done /\
         (sa_tools (strand_agent (self w)) = tools (self w) ->
          sa_tools (strand_agent (self w')) = tools (self w) ++ done)).
Proof.
  intros lib cfg w. split.
  - intros new_tools. apply add_all_accepted.
  - intros done tool rest e. apply add_all_refused.
Qed.

Lemma add_tools_in_sequence_witness :
  (exists w',
     add_all Demo.strands ["calculator"; "calculator"] (Demo.world None) = (Return tt, w') /\
     tools (self w') = ["calculator"; "calculator"]) /\
  (exists w',
     add_all Demo.strands ["calculator"; "weather"; "calculator"] (Demo.world None)
       = (Raise (ValueError "Failed to load tool"), w') /\
     tools (self w') = ["calculator"; "weather"] /\
     sa_tools (strand_agent (self w')) = ["calculator"]).
Proof.
  destruct (add_tools_in_sequence Demo.strands Demo.cfg (Demo.world None)) as [Hok Hfail].
  split.
  - destruct (Hok ["calculator"; "calculator"]) as (w' & E & Ht & _).
    + intros [| [| n]] Hn; [reflexivity | reflexivity |].
      cbn [List.length] in Hn. lia.
    + exists w'. split; [exact E | exact Ht].
  - destruct (Hfail ["calculator"] "weather" ["calculator"] (ValueError "Failed to load tool"))
      as (w' & E & Ht & _ & Hstale).
    + intros [| n] Hn; [reflexivity |]. cbn [List.length] in Hn. lia.
    + reflexivity.
    + exists w'. split; [exact E |]. split; [exact Ht | apply Hstale; reflexivity].
Defined.

(** *** What a chat sends, returns and logs *)

(** X10: a chat request carries nothing of what went before. After an
    earlier chat the next one sends the request it would have sent first:
    no earlier message or answer is in it. After [add_tool] a chat sends
    the request it would have sent without the tool, and returns the same:
    tools never reach the model. *)
Theorem chat_keeps_no_history_and_sends_no_tools :
  forall srv lib earlier earlier_kwargs message kwargs tool w,
    calls (snd (chat srv message kwargs (snd (chat srv earlier earlier_kwargs w))))
      = (calls w
         ++ requests_made ["model"; "messages"] earlier_kwargs
              (CallChat (chat_request (self w) earlier earlier_kwargs)))
         ++ requests_made ["model"; "messages"] kwargs
              (CallChat (chat_request (self w) message kwargs)) /\
    calls (snd (chat srv message kwargs (snd (add_tool lib tool w))))
      = calls w ++ requests_made ["model"; "messages"] kwargs
                     (CallChat (chat_request (self w) message kwargs)) /\
    fst (chat srv message kwargs (snd (add_tool lib tool w))) = fst (chat srv message kwargs w) /\
    fst (async_chat srv message kwargs (snd (add_tool lib tool w)))
      = fst (async_chat srv message kwargs w) /\
    fst (fst (next srv (stream_chat message kwargs) (snd (add_tool lib tool w))))
      = fst (fst (next srv (stream_chat message kwargs) w)).
Proof.
  intros srv lib earlier earlier_kwargs message kwargs tool w.
  assert (Hcalls : forall m k w0,
            calls (snd (chat srv m k w0))
              = calls w0 ++ requests_made ["model"; "messages"] k
                              (CallChat (chat_request (self w0) m k))).
  { intros m k w0. rewrite chat_run. unfold requests_made.
    destruct (repeated_keyword _ k); cbn [snd calls add_log].
    - symmetry; apply app_nil_r.
    - destruct (obind _ _); reflexivity. }
  assert (Hself : forall m k w0, self (snd (chat srv m k w0)) = self w0).
  { intros m k w0. rewrite chat_run.
    destruct (repeated_keyword _ k); [reflexivity |].
    cbv zeta. destruct (obind _ _); reflexivity. }
  assert (Hadd : model (self (snd (add_tool lib tool w))) = model (self w) /\
                 system_prompt (self (snd (add_tool lib tool w))) = system_prompt (self w) /\
                 calls (snd (add_tool lib tool w)) = calls w).
  { rewrite add_tool_run. destruct (constructor_fault _ _ _ _); repeat split. }
  destruct Hadd as (Hmodel & Hprompt & Hsame).
  assert (Hreq : chat_request (self (snd (add_tool lib tool w))) message kwargs
                 = chat_request (self w) message kwargs)
    by (unfold chat_request, conversation; rewrite Hmodel, Hprompt; reflexivity).
  assert (Hsreq : stream_request (self (snd (add_tool lib tool w))) message kwargs
                  = stream_request (self w) message kwargs)
    by (unfold stream_request, conversation; rewrite Hmodel, Hprompt; reflexivity).
  split; [| split; [| split; [| split]]].
  - rewrite Hcalls, Hself, Hcalls. reflexivity.
  - rewrite Hcalls, Hreq, Hsame. reflexivity.
  - rewrite !chat_run, Hreq.
    destruct (repeated_keyword _ kwargs); [reflexivity |].
    cbv zeta. destruct (obind _ _); reflexivity.
  - rewrite !async_chat_run, Hreq.
    destruct (repeated_keyword _ kwargs); [reflexivity |].
    cbv zeta. destruct (obind _ _); reflexivity.
  - unfold stream_chat. cbn [next]. rewrite !stream_start_run, Hsreq.
    destruct (repeated_keyword _ kwargs); [reflexivity |].
    cbv zeta. destruct (obind _ _) as [[items fin] | e]; [| reflexivity].
    unfold stream_loop. destruct items as [| chunk items].
    + destruct fin; reflexivity.
    + destruct (obind _ _); reflexivity.
Qed.

(** X11: [chat] and [async_chat] write to the log exactly when they turn a
    fault into text: one [ERROR] record with the fault's description, and
    nothing when the content is returned. *)
Theorem chat_logs_each_fault_once :
  forall srv message kwargs w,
    log (snd (chat srv message kwargs w))
      = log w ++ error_records "Error in chat: "
                   (exchange (ollama_chat srv) "ollama._client.Client.chat()"
                             (self w) message kwargs) /\
    log (snd (async_chat srv message kwargs w))
      = log w ++ error_records "Error in async_chat: "
                   (exchange (ollama_async_chat srv) "ollama._client.AsyncClient.chat()"
                             (self w) message kwargs).
Proof.
  intros srv message kwargs w. split.
  - rewrite chat_run. unfold exchange.
    destruct (repeated_keyword _ kwargs); [reflexivity |].
    cbv zeta. destruct (obind _ _); cbn [snd log add_log add_call error_records];
      [symmetry; apply app_nil_r | reflexivity].
  - rewrite async_chat_run. unfold exchange.
    destruct (repeated_keyword _ kwargs); [reflexivity |].
    cbv zeta. destruct (obind _ _); cbn [snd log add_log add_call error_records];
      [symmetry; apply app_nil_r | reflexivity].
Qed.

(** X12: [chat] returns content only from a response that is a mapping with
    a [message] mapping inside. A response of another kind, such as the
    generator the library hands back when [stream=True] travels in the
    keyword arguments, gives the text of a [TypeError]; a mapping without
    [message] gives the text of the [KeyError]. *)
Theorem chat_needs_a_mapping_response :
  forall srv message kwargs w response,
    repeated_keyword ["model"; "messages"] kwargs = None ->
    ollama_chat srv (chat_request (self w) message kwargs) = Return response ->
    ((forall d, response <> PDict d) ->
     exists e,
       exn_class e = "TypeError" /\
       fst (chat srv message kwargs w) = Return (error_text e)) /\
    (forall d,
       response = PDict d -> dict_get d "message" = None ->
       fst (chat srv message kwargs w) = Return (PStr "Error: 'message'")) /\
    (forall items fin,
       response = PIter items fin ->
       fst (chat srv message kwargs w)
         = Return (PStr "Error: 'generator' object is not subscriptable")).
Proof.
  intros srv message kwargs w response Hkw Hresponse.
  rewrite chat_run, Hkw. cbv zeta. rewrite Hresponse. cbn [obind].
  unfold response_content. split; [| split].
  - intros Hnot. destruct response; try (eexists; split; [| reflexivity]; reflexivity).
    exfalso. eapply Hnot. reflexivity.
  - intros d -> Hd. cbn [subscript]. rewrite Hd. reflexivity.
  - intros items fin ->. reflexivity.
Qed.

Lemma chat_needs_a_mapping_response_witness :
  fst (chat
         {| ollama_chat := fun r => Return (PIter [Demo.reply "The"] None);
            ollama_async_chat := fun r => Return PNone;
            ollama_show := fun m => Return PNone;
            ollama_list := Return PNone |}
         "hi" [("stream", PBool true)] (Demo.world None))
    = Return (PStr "Error: 'generator' object is not subscriptable").
Proof.
  refine (proj2 (proj2 (chat_needs_a_mapping_response
                          {| ollama_chat := fun r => Return (PIter [Demo.reply "The"] None);
                             ollama_async_chat := fun r => Return PNone;
                             ollama_show := fun m => Return PNone;
                             ollama_list := Return PNone |}
                          "hi" [("stream", PBool true)] (Demo.world None)
                          (PIter [Demo.reply "The"] None) eq_refl eq_refl))
            [Demo.reply "The"] None eq_refl).
Defined.

(** X13: [get_model_info] never raises. It asks the library once, about the
    agent's own model, and returns what the library returns; when the
    library raises it returns a mapping with the fault's text under [error]
    alone and logs one record. *)
Theorem get_model_info_returns_metadata_or_error :
  forall srv w,
    fst (get_model_info srv w)
      = Return (match ollama_show srv (model (self w)) with
                | Return metadata => metadata
                | Raise e => PDict [("error", PStr (exn_str e))]
                end) /\
    calls (snd (get_model_info srv w)) = calls w ++ [CallShow (model (self w))] /\
    log (snd (get_model_info srv w))
      = log w ++ error_records "Error getting model info: "
                   (ollama_show srv (model (self w))).
Proof.
  intros srv w.
  unfold get_model_info, try_except, bind, get_self, record_call, lift, logger, ret.
  destruct (ollama_show srv (model (self w))); cbn [fst snd calls log add_log add_call
    error_records]; repeat split; symmetry; apply app_nil_r.
Qed.

(** *** The model inventory *)




(** *** Streams in general *)

Section EveryStream.

Variable srv : Ollama.

Lemma consume_same_next g w g' w' fuel :
  next srv g w = next srv g' w' ->
  consume srv fuel g w = consume srv fuel g' w'.
Proof. intros H. destruct fuel as [| fuel]; [reflexivity |]. cbn [consume]. rewrite H. reflexivity. Qed.

(** After the handler's fragment the generator stops. *)
Lemma consume_fault g w e w1 fuel :
  next srv g w = stream_handler e w1 ->
  1 < fuel ->
  consume srv fuel g w
    = Some ([error_text e], Finished, add_log w1 ERROR ("Error in stream_chat: " ++ exn_str e)).
Proof.
  intros Hnext Hfuel.
  destruct fuel as [| [| fuel]]; [inversion Hfuel | | ].
  - apply PeanoNat.lt_S_n in Hfuel. inversion Hfuel.
  - cbn [consume]. rewrite Hnext. reflexivity.
Qed.

Lemma consume_loop_trace chunks fin :
  forall w fuel,
    List.length (fragments_until_fault chunks fin) < fuel ->
    exists w',
      consume srv fuel (InLoop chunks fin) w
        = Some (fragments_until_fault chunks fin, Finished, w') /\
      calls w' = calls w.
Proof.
  induction chunks as [| chunk rest IH]; intros w fuel Hfuel; cbn [fragments_until_fault] in *.
  - destruct fin as [e |].
    + eexists. split; [apply (consume_fault _ _ e w); [reflexivity | exact Hfuel] |].
      reflexivity.
    + destruct fuel as [| fuel]; [inversion Hfuel |]. eexists. split; reflexivity.
  - destruct (response_content chunk) as [fragment | e] eqn:Hc.
    + destruct fuel as [| fuel]; [inversion Hfuel |].
      cbn [List.length] in Hfuel. apply PeanoNat.lt_S_n in Hfuel.
      destruct (IH w fuel Hfuel) as (w' & E & Hcalls).
      exists w'. split; [| exact Hcalls].
      cbn [consume next stream_loop]. unfold response_content in Hc. rewrite Hc, E.
      reflexivity.
    + eexists. split; [apply (consume_fault _ _ e w); [| exact Hfuel] |].
      * cbn [next stream_loop]. unfold response_content in Hc. rewrite Hc. reflexivity.
      * reflexivity.
Qed.

(** X15: a [stream_chat] generator always runs to its end, whatever the
    server does: a consumer that asks at most once more than there are
    fragments is given the content of each chunk up to the first fault and,
    if there is a fault (the call refused, the library raising, a reply that
    cannot be iterated, a chunk without content, the stream breaking), one
    last fragment with its text; the generator is then finished, and the
    whole run made at most one request. *)
Theorem stream_chat_always_ends :
  forall message kwargs w fuel,
    List.length (stream_trace srv (self w) message kwargs) < fuel ->
    exists w',
      consume srv fuel (stream_chat message kwargs) w
        = Some (stream_trace srv (self w) message kwargs, Finished, w') /\
      calls w' = calls w ++ requests_made ["model"; "messages"; "stream"] kwargs
                              (CallChat (stream_request (self w) message kwargs)).
Proof.
  intros message kwargs w fuel. unfold stream_trace, requests_made.
  assert (Hstart := stream_start_run srv message kwargs w).
  destruct (repeated_keyword ["model"; "messages"; "stream"] kwargs) as [k |].
  - intros Hfuel. eexists. split.
    + apply (consume_fault _ _ _ w); [exact Hstart | exact Hfuel].
    + symmetry. apply app_nil_r.
  - cbv zeta in Hstart.
    destruct (obind (ollama_chat srv (stream_request (self w) message kwargs)) py_iter)
      as [[chunks fin] | e].
    + intros Hfuel.
      destruct (consume_loop_trace chunks fin
                  (add_call w (CallChat (stream_request (self w) message kwargs)))
                  fuel Hfuel) as (w' & E & Hcalls).
      exists w'. split; [| exact Hcalls].
      rewrite <- E. apply consume_same_next. exact Hstart.
    + intros Hfuel. eexists. split.
      * eapply consume_fault; [exact Hstart | exact Hfuel].
      * reflexivity.
Qed.

Lemma fragments_until_bad_chunk before fragments bad rest fin e :
  carries before fragments ->
  response_content bad = Raise e ->
  fragments_until_fault (before ++ bad :: rest) fin = fragments ++ [error_text e].
Proof.
  intros Hcarry Hbad.
  induction Hcarry as [| chunk fragment before fragments Hc _ IH];
    cbn [app fragments_until_fault].
  - rewrite Hbad. reflexivity.
  - rewrite Hc, IH. reflexivity.
Qed.

(** X16: a chunk without a content field ends the stream. The fragments
    before it are yielded, then one error fragment; the chunks after it are
    never read, however many the server still sends. *)
Theorem stream_chat_stops_at_a_bad_chunk :
  forall message kwargs w reply before bad rest fin fragments e,
    repeated_keyword ["model"; "messages"; "stream"] kwargs = None ->
    ollama_chat srv (stream_request (self w) message kwargs) = Return reply ->
    py_iter reply = Return (before ++ bad :: rest, fin) ->
    carries before fragments ->
    response_content bad = Raise e ->
    forall fuel,
      S (List.length fragments) < fuel ->
      exists w',
        consume srv fuel (stream_chat message kwargs) w
          = Some (fragments ++ [error_text e], Finished, w').
Proof.
  intros message kwargs w reply before bad rest fin fragments e
         Hkw Hreply Hiter Hcarry Hbad fuel Hfuel.
  assert (Hstart := stream_start_run srv message kwargs w).
  rewrite Hkw in Hstart. cbv zeta in Hstart. rewrite Hreply in Hstart.
  cbn [obind] in Hstart. rewrite Hiter in Hstart.
  destruct (consume_loop_trace (before ++ bad :: rest) fin
              (add_call w (CallChat (stream_request (self w) message kwargs))) fuel)
    as (w' & E & _).
  - rewrite (fragments_until_bad_chunk _ _ _ _ _ _ Hcarry Hbad), length_app.
    cbn [List.length]. lia.
  - exists w'. rewrite <- (fragments_until_bad_chunk _ _ _ rest fin _ Hcarry Hbad), <- E.
    apply consume_same_next. exact Hstart.
Qed.

End EveryStream.

Lemma stream_chat_always_ends_witness :
  exists w',
    consume Demo.broken_server 2 (stream_chat "hi" [("stream", PBool false)]) (Demo.world None)
      = Some ([PStr "Error: ollama._client.Client.chat() got multiple values for keyword argument 'stream'"],
              Finished, w') /\
    calls w' = [].
Proof.
  destruct (stream_chat_always_ends Demo.broken_server "hi" [("stream", PBool false)]
              (Demo.world None) 2)
    as (w' & E & Hcalls).
  - repeat constructor.
  - exists w'. split; [exact E | exact Hcalls].
Defined.

Lemma stream_chat_stops_at_a_bad_chunk_witness :
  exists w',
    consume
      {| ollama_chat := fun r =>
           Return (PList [Demo.reply "The"; PDict [("done", PBool true)]; Demo.reply " end"]);
         ollama_async_chat := fun r => Return PNone;
         ollama_show := fun m => Return PNone;
         ollama_list := Return PNone |}
      3 (stream_chat "hi" []) (Demo.world None)
      = Some ([PStr "The"; PStr "Error: 'message'"], Finished, w').
Proof.
  refine (stream_chat_stops_at_a_bad_chunk
            {| ollama_chat := fun r =>
                 Return (PList [Demo.reply "The"; PDict [("done", PBool true)];
                                Demo.reply " end"]);
               ollama_async_chat := fun r => Return PNone;
               ollama_show := fun m => Return PNone;
               ollama_list := Return PNone |}
            "hi" [] (Demo.world None)
            (PList [Demo.reply "The"; PDict [("done", PBool true)]; Demo.reply " end"])
            [Demo.reply "The"] (PDict [("done", PBool true)]) [Demo.reply " end"] None
            [PStr "The"] (KeyError "message")
            eq_refl eq_refl eq_refl _ eq_refl 3 _).
  - repeat constructor.
  - repeat constructor.
Defined.

(** *** The factory and the quick access functions *)

Import Quick.

(** X17: [create_agent] and the quick access functions build the same agent
    when a non-empty model is named and when none is. They part on the empty
    model name: [create_agent] treats it as no model and uses the preset's
    default, while a quick access function passes it on, and the agent gets
    the configured default model. *)
Theorem create_agent_and_quick_access :
  forall lib cfg asked lg,
    asked <> Some "" ->
    (create_agent lib cfg "math" asked lg = math_agent lib cfg asked lg /\
     create_agent lib cfg "research" asked lg = research_agent lib cfg asked lg /\
     create_agent lib cfg "code" asked lg = code_agent lib cfg asked lg /\
     create_agent lib cfg "analysis" asked lg = analysis_agent lib cfg asked lg /\
     create_agent lib cfg "creative" asked lg = creative_agent lib cfg asked lg) /\
    (forall key, create_agent lib cfg key (Some "") lg = create_agent lib cfg key None lg) /\
    (exists a lg',
       create_agent lib cfg "code" (Some "") lg = (Return a, lg') /\ model a = "codellama") /\
    (exists a lg',
       code_agent lib cfg (Some "") lg = (Return a, lg') /\ model a = default_model cfg).
Proof.
  intros lib cfg asked lg Hasked. split; [| split; [| split]].
  - destruct asked as [m |]; [| repeat split].
    assert (Hm : opt_str_truthy (Some m) = true).
    { cbn [opt_str_truthy]. unfold str_truthy.
      destruct (String.eqb_spec m ""); [subst; contradiction | reflexivity]. }
    unfold create_agent. cbn [lower lower_char dict_has dict_get agents Tools.getitem negb
      String.eqb Ascii.eqb Bool.eqb N_of_ascii N.leb N.eqb N.compare Pos.compare
      Pos.compare_cont N.add Pos.add andb orb ascii_of_N].
    repeat split; vm_compute lower; cbn [dict_has dict_get agents Tools.getitem negb
      String.eqb Ascii.eqb Bool.eqb]; rewrite Hm; reflexivity.
  - intros key. unfold create_agent. reflexivity.
  - change (create_agent lib cfg "code" (Some "") lg) with (CodeAgent lib cfg None lg).
    cbv beta iota zeta delta [CodeAgent init new_StrandAgent].
    rewrite (proj1 (presets_are_built lib "CodeAgent")).
    eexists. eexists. split; reflexivity.
  - cbv beta iota zeta delta [code_agent or_default CodeAgent init new_StrandAgent].
    rewrite (proj1 (presets_are_built lib "CodeAgent")).
    eexists. eexists. split; reflexivity.
Qed.

Lemma create_agent_and_quick_access_witness :
  create_agent Demo.strands Demo.cfg "math" (Some "deepseek-r1:7b") []
    = math_agent Demo.strands Demo.cfg (Some "deepseek-r1:7b") [].
Proof.
  refine (proj1 (proj1 (create_agent_and_quick_access Demo.strands Demo.cfg (Some "deepseek-r1:7b") [] _))).
  discriminate.
Defined.

(** X18: [create_agent] reads the agent type whatever its letter case: two
    spellings with the same lowercase form, that of a preset, build the same
    agent. *)
Theorem create_agent_ignores_letter_case :
  forall lib cfg agent_type agent_type' asked lg,
    lower agent_type = lower agent_type' ->
    In (lower agent_type) preset_names ->
    create_agent lib cfg agent_type asked lg = create_agent lib cfg agent_type' asked lg /\
    create_agent lib cfg agent_type asked lg = create_agent lib cfg (lower agent_type) asked lg /\
    exists a lg', create_agent lib cfg agent_type asked lg = (Return a, lg').
Proof.
  intros lib cfg agent_type agent_type' asked lg Hsame Hin.
  pose proof (proj2 (agents_keys (lower agent_type)) Hin) as Hhas.
  unfold create_agent. rewrite lower_idempotent, <- Hsame, Hhas. cbn [negb].
  split; [reflexivity |]. split; [reflexivity |].
  unfold dict_has in Hhas. unfold Tools.getitem.
  destruct (dict_get agents (lower agent_type)) as [agent_class |] eqn:Hget; [| discriminate].
  assert (Hclass : forall m, exists a lg', agent_class lib cfg m lg = (Return a, lg')).
  { unfold agents in Hget. cbn [dict_get] in Hget.
    repeat match type of Hget with
           | context [String.eqb ?k (lower agent_type)] =>
               destruct (String.eqb k (lower agent_type));
               [injection Hget as <-; intros m;
                unfold MathAgent, ResearchAgent, CodeAgent, AnalysisAgent, CreativeAgent,
                  init, new_StrandAgent, calculator;
                rewrite ?(proj1 (presets_are_built lib _)), ?(proj2 (presets_are_built lib _));
                eexists; eexists; reflexivity |]
           end.
    discriminate. }
  destruct (opt_str_truthy asked); apply Hclass.
Qed.

Lemma create_agent_ignores_letter_case_witness :
  create_agent Demo.strands Demo.cfg "CREATIVE" None [] = create_agent Demo.strands Demo.cfg "Creative" None [].
Proof.
  refine (proj1 (create_agent_ignores_letter_case Demo.strands Demo.cfg "CREATIVE" "Creative" None [] _ _)).
  - reflexivity.
  - cbn. tauto.
Defined.
